(** * Pomice [Player]: a shallow embedding of [pomice/player.py]

    The player is a state-tracking adapter between a chat platform's voice
    gateway and a remote audio node.  Every method of the Python class is
    embedded as a computation in a small monad that threads the player
    object, logs the calls to [Node.send] and propagates Python exceptions
    (keeping, as Python does, the mutations made before the [raise]).

    Conventions.
    - Values that arrive in [dict] payloads are dynamically typed: they are
      modelled by [pyval], and the fields the code assigns from such
      payloads ([_is_connected], [_last_position]) hold a [pyval].
    - Arguments that the Python signatures annotate ([Track], [Filter],
      [bool], [int], [float]) are taken at their annotated type.
    - Times and positions are numbers of milliseconds, modelled in [Z];
      the reading of the clock [time.time() * 1000] is the argument [now]
      of the operations that read it.  Where the arithmetic on the clock
      matters, [position_float] computes as Python does, in binary64.
    - [Node], [Guild], [events] and the builtin [int] are collaborators
      that live outside [player.py]; what the player needs of them is a
      variable of the section [Environment]. *)

From stdpp Require Import base option list gmap strings pretty.
From Stdlib Require Import ZArith Lia SpecFloat.

Local Open Scope string_scope.
Local Open Scope Z_scope.

#[local] Set Warnings "-register-all".

(** ** Dynamically typed values *)

Inductive pyval : Type :=
  | VNone
  | VBool (b : bool)
  | VInt (z : Z)
  | VStr (s : string)
  | VDict (d : gmap string pyval).

(** A Python [dict] with string keys, and the keyword arguments of a call. *)
Abbreviation pydict := (gmap string pyval).

(** Python truthiness, as used by [not x] and [x and y]. *)
Definition truthy (v : pyval) : bool :=
  match v with
  | VNone => false
  | VBool b => b
  | VInt z => negb (z =? 0)
  | VStr s => negb (String.eqb s "")
  | VDict d => negb (bool_decide (dom d = ∅))
  end.

(** [x and y]: the first operand when it is falsy, the second otherwise. *)
Definition py_and (x y : pyval) : pyval :=
  if truthy x then y else x.

(** [d.get(k)]: the value, or [None] when the key is absent. *)
Definition dict_get (d : pydict) (k : string) : pyval :=
  default VNone (d !! k).

(** ** Exceptions and results *)

Inductive exn : Type :=
  | AttributeError
  | TypeError
  | ValueError
  | IndexError
  | KeyError
  | TrackInvalidPosition
  | ExternalError
  | OverflowError.

Inductive result (A : Type) : Type :=
  | Ok (a : A)
  | Raise (e : exn).
Arguments Ok {A} a.
Arguments Raise {A} e.

(** The number a value denotes in arithmetic and comparisons ([bool] is a
    subclass of [int]); other values raise [TypeError] there. *)
Definition py_num (v : pyval) : result Z :=
  match v with
  | VInt z => Ok z
  | VBool b => Ok (Z.b2z b)
  | _ => Raise TypeError
  end.

(** ** The objects the player handles *)

(** [objects.Track], with the attributes [player.py] reads or writes. *)
Inductive Track : Type := Build_Track {
  track_id : string;
  length : Z;
  spotify : bool;
  search_type : string;
  youtube_result : option Track
}.

Definition set_youtube_result (t : Track) (r : Track) : Track :=
  Build_Track (track_id t) (length t) (spotify t) (search_type t) (Some r).

(** [filters.Filter]: [player.py] only reads its [payload]. *)
Record Filter : Type := Build_Filter { payload : pydict }.

Record Guild : Type := Build_Guild { guild_id : Z }.

Record VoiceChannel : Type := Build_VoiceChannel {
  channel_id : Z;
  channel_guild : Guild
}.

(** The part of the [Node] object the player writes directly: the keys of
    its [_players] dictionary. *)
Record Node : Type := Build_Node { _players : gset Z }.

(** The attributes of a [Player] instance.  [is_connected] is the plain
    attribute that [connect] creates (absent until then); it is distinct
    from [_is_connected]. *)
Record Player : Type := Build_Player {
  channel : option VoiceChannel;
  _guild : Guild;
  _node : Node;
  _current : option Track;
  _filter : option Filter;
  _volume : Z;
  _paused : bool;
  _is_connected : pyval;
  _position : Z;
  _last_position : pyval;
  _last_update : Z;
  _voice_state : pydict;
  is_connected : option bool
}.

(** [Player.__init__]; the node is the one [NodePool.get_node()] returns. *)
Definition init (ch : VoiceChannel) (node : Node) : Player :=
  {| channel := Some ch;
     _guild := channel_guild ch;
     _node := node;
     _current := None;
     _filter := None;
     _volume := 100;
     _paused := false;
     _is_connected := VBool false;
     _position := 0;
     _last_position := VInt 0;
     _last_update := 0;
     _voice_state := ∅;
     is_connected := None |}.

(** Attribute assignments.  There is none for [_position]: no statement of
    [player.py] assigns it after [__init__]. *)
Definition set_channel (v : option VoiceChannel) (p : Player) : Player :=
  Build_Player v (_guild p) (_node p) (_current p) (_filter p) (_volume p)
    (_paused p) (_is_connected p) (_position p) (_last_position p)
    (_last_update p) (_voice_state p) (is_connected p).

Definition set_node (v : Node) (p : Player) : Player :=
  Build_Player (channel p) (_guild p) v (_current p) (_filter p) (_volume p)
    (_paused p) (_is_connected p) (_position p) (_last_position p)
    (_last_update p) (_voice_state p) (is_connected p).

Definition set__current (v : option Track) (p : Player) : Player :=
  Build_Player (channel p) (_guild p) (_node p) v (_filter p) (_volume p)
    (_paused p) (_is_connected p) (_position p) (_last_position p)
    (_last_update p) (_voice_state p) (is_connected p).

Definition set__filter (v : option Filter) (p : Player) : Player :=
  Build_Player (channel p) (_guild p) (_node p) (_current p) v (_volume p)
    (_paused p) (_is_connected p) (_position p) (_last_position p)
    (_last_update p) (_voice_state p) (is_connected p).

Definition set__volume (v : Z) (p : Player) : Player :=
  Build_Player (channel p) (_guild p) (_node p) (_current p) (_filter p) v
    (_paused p) (_is_connected p) (_position p) (_last_position p)
    (_last_update p) (_voice_state p) (is_connected p).

Definition set__paused (v : bool) (p : Player) : Player :=
  Build_Player (channel p) (_guild p) (_node p) (_current p) (_filter p)
    (_volume p) v (_is_connected p) (_position p) (_last_position p)
    (_last_update p) (_voice_state p) (is_connected p).

Definition set__is_connected (v : pyval) (p : Player) : Player :=
  Build_Player (channel p) (_guild p) (_node p) (_current p) (_filter p)
    (_volume p) (_paused p) v (_position p) (_last_position p)
    (_last_update p) (_voice_state p) (is_connected p).

Definition set__last_position (v : pyval) (p : Player) : Player :=
  Build_Player (channel p) (_guild p) (_node p) (_current p) (_filter p)
    (_volume p) (_paused p) (_is_connected p) (_position p) v
    (_last_update p) (_voice_state p) (is_connected p).

Definition set__last_update (v : Z) (p : Player) : Player :=
  Build_Player (channel p) (_guild p) (_node p) (_current p) (_filter p)
    (_volume p) (_paused p) (_is_connected p) (_position p)
    (_last_position p) v (_voice_state p) (is_connected p).

Definition set__voice_state (v : pydict) (p : Player) : Player :=
  Build_Player (channel p) (_guild p) (_node p) (_current p) (_filter p)
    (_volume p) (_paused p) (_is_connected p) (_position p)
    (_last_position p) (_last_update p) v (is_connected p).

Definition set_is_connected (v : option bool) (p : Player) : Player :=
  Build_Player (channel p) (_guild p) (_node p) (_current p) (_filter p)
    (_volume p) (_paused p) (_is_connected p) (_position p)
    (_last_position p) (_last_update p) (_voice_state p) v.

(** ** The monad of player methods *)

(** What running a method leaves behind: the player object, the keyword
    arguments of each call to [Node.send] in order, and the value returned
    or the exception raised. *)
Record Outcome (A : Type) : Type := Build_Outcome {
  final : Player;
  sent : list pydict;
  value : result A
}.
Arguments Build_Outcome {A} _ _ _.
Arguments final {A} _.
Arguments sent {A} _.
Arguments value {A} _.

Definition Py (A : Type) : Type := Player → Outcome A.

Definition ret {A} (a : A) : Py A := λ p, Build_Outcome p [] (Ok a).

Definition raise {A} (e : exn) : Py A := λ p, Build_Outcome p [] (Raise e).

Definition bind {A B} (m : Py A) (k : A → Py B) : Py B := λ p,
  let o := m p in
  match value o with
  | Ok a => let o' := k a (final o) in
            Build_Outcome (final o') (sent o ++ sent o') (value o')
  | Raise e => Build_Outcome (final o) (sent o) (Raise e)
  end.

#[global] Instance Py_ret : MRet Py := @ret.
#[global] Instance Py_bind : MBind Py := λ A B k m, bind m k.

(** Reading and assigning attributes of [self]. *)
Definition attr {A} (f : Player → A) : Py A := λ p, Build_Outcome p [] (Ok (f p)).
Definition assign (f : Player → Player) : Py unit := λ p, Build_Outcome (f p) [] (Ok tt).

(** Evaluating an expression over [self] that may raise. *)
Definition expr {A} (f : Player → result A) : Py A := λ p, Build_Outcome p [] (f p).

(** A computation that does not involve [self] and may raise. *)
Definition lift {A} (r : result A) : Py A := expr (λ _, r).

(** ** Keyword arguments and [Node.send] *)

(** A call with explicit keywords and a starred dictionary [star]: Python
    raises [TypeError] when a key of [star] repeats an explicit keyword;
    otherwise the callee receives the explicit keywords together with the
    entries of [star]. *)
Definition kwargs (explicit : list (string * pyval)) (star : pydict) : result pydict :=
  if forallb (λ kv, negb (bool_decide (kv.1 ∈ dom star))) explicit
  then Ok (list_to_map explicit ∪ star)
  else Raise TypeError.

(** [await self._node.send(...)] with keyword arguments [kw]: the call is
    recorded; the node itself is outside [player.py]. *)
Definition node_send (kw : pydict) : Py unit := λ p, Build_Outcome p [kw] (Ok tt).

Definition send (explicit : list (string * pyval)) (star : pydict) : Py unit :=
  kw ← lift (kwargs explicit star); node_send kw.

(** [str(self.guild.id)] *)
Definition guildId (p : Player) : pyval := VStr (pretty (guild_id (_guild p))).

(** ** Properties *)

(** [current] *)
Definition current (p : Player) : option Track := _current p.

(** [filter] *)
Definition filter (p : Player) : option Filter := _filter p.

(** [volume] *)
Definition volume (p : Player) : Z := _volume p.

(** [is_playing]: [self._is_connected and self.current is not None] *)
Definition is_playing (p : Player) : pyval :=
  py_and (_is_connected p) (VBool (bool_decide (is_Some (current p)))).

(** [is_paused]: [self._is_connected and self._paused] *)
Definition is_paused (p : Player) : pyval :=
  py_and (_is_connected p) (VBool (_paused p)).

(** [self.current.length]: attribute access on [None] raises. *)
Definition current_length (p : Player) : result Z :=
  match current p with
  | Some t => Ok (length t)
  | None => Raise AttributeError
  end.

Definition result_bind {A B} (r : result A) (k : A → result B) : result B :=
  match r with
  | Ok a => k a
  | Raise e => Raise e
  end.

(** [position], read when the clock shows [now] milliseconds.  A track
    object is truthy, so [not self.current] holds exactly when the current
    track is [None]. *)
Definition position (now : Z) (p : Player) : result Z :=
  if negb (truthy (is_playing p)) || negb (bool_decide (is_Some (current p)))
  then Ok 0
  else if truthy (is_paused p)
  then
    result_bind (py_num (_last_position p)) (λ last,
    result_bind (current_length p) (λ len,
    Ok (Z.min last len)))
  else
    let difference := now - _last_update p in
    result_bind (py_num (_last_position p)) (λ last,
    let position := last + difference in
    result_bind (current_length p) (λ len,
    if position >? len then Ok 0
    else Ok (Z.min position len))).

(** ** The position as Python computes it

    [position] above keeps the clock in whole milliseconds and adds and
    subtracts exactly; it is used where only the control flow of the
    property matters.  Python evaluates [time.time() * 1000] to a binary64
    [float], and [_last_update] holds such a float once a state update has
    stored it: the definitions below follow that arithmetic. *)

(** A Python [float]: an IEEE 754 binary64 number. *)
Definition float : Type := spec_float.
Definition float_prec : Z := 53.
Definition float_emax : Z := 1024.

(** [x + y] and [x - y] on floats, rounded to nearest, ties to even. *)
Definition float_add (x y : float) : float := SFadd float_prec float_emax x y.
Definition float_sub (x y : float) : float := SFsub float_prec float_emax x y.

(** The float nearest to [m * 2^e], for writing down a float. *)
Definition float_of_scaled (m e : Z) : float :=
  binary_normalize float_prec float_emax m e false.

(** An [int] operand of float arithmetic is converted to the nearest float
    (ties to even); Python raises [OverflowError] when the integer lies
    beyond the largest float. *)
Definition float_of_int (z : Z) : result float :=
  match binary_normalize float_prec float_emax z 0 false with
  | S754_infinity _ => Raise OverflowError
  | f => Ok f
  end.

(** A number: an [int] or a [float]. *)
Inductive pynum : Type :=
  | NInt (z : Z)
  | NFloat (f : float).

(** Python compares a float with an int by value, without converting the
    int; a NaN compares with nothing. *)
Definition float_compare_int (f : float) (z : Z) : option comparison :=
  match f with
  | S754_nan => None
  | S754_infinity s => Some (if s then Lt else Gt)
  | S754_zero _ => Some (0 ?= z)
  | S754_finite s m e =>
      let n := cond_Zopp s (Zpos m) in
      Some (if 0 <=? e then n * 2 ^ e ?= z else n ?= z * 2 ^ (- e))
  end.

Definition num_compare_int (x : pynum) (z : Z) : option comparison :=
  match x with
  | NInt a => Some (a ?= z)
  | NFloat f => float_compare_int f z
  end.

(** [x > n], [x <= n] and [n <= x] for a number [x] and an int [n]. *)
Definition num_gt_int (x : pynum) (n : Z) : bool :=
  match num_compare_int x n with Some Gt => true | _ => false end.
Definition num_le_int (x : pynum) (n : Z) : bool :=
  match num_compare_int x n with Some Lt | Some Eq => true | _ => false end.
Definition int_le_num (n : Z) (x : pynum) : bool :=
  match num_compare_int x n with Some Gt | Some Eq => true | _ => false end.

(** [min(x, n)]: the second argument when [n < x], the first otherwise.
    For an int [n] and a float [x] the test [n < x] is answered by the
    float's reflected comparison, the one that answers [x > n]. *)
Definition py_min (x : pynum) (n : Z) : pynum :=
  if num_gt_int x n then NInt n else x.

(** [x - y] for a float and a number. *)
Definition float_sub_num (x : float) (y : pynum) : result float :=
  match y with
  | NInt z => result_bind (float_of_int z) (λ f, Ok (float_sub x f))
  | NFloat f => Ok (float_sub x f)
  end.

(** [z + d] for an int and a float. *)
Definition int_add_float (z : Z) (d : float) : result float :=
  result_bind (float_of_int z) (λ f, Ok (float_add f d)).

(** [self._last_position + difference], with
    [difference = (time.time() * 1000) - self._last_update]: [now] is the
    clock reading and [last_update] the value of [_last_update]. *)
Definition extrapolated (now : float) (last_update : pynum) (p : Player) : result float :=
  result_bind (float_sub_num now last_update) (λ difference,
  result_bind (py_num (_last_position p)) (λ last,
  int_add_float last difference)).

(** [position], with the clock reading [now] and the value [last_update]
    of [_last_update] as Python numbers. *)
Definition position_float (now : float) (last_update : pynum) (p : Player) : result pynum :=
  if negb (truthy (is_playing p)) || negb (bool_decide (is_Some (current p)))
  then Ok (NInt 0)
  else if truthy (is_paused p)
  then
    result_bind (py_num (_last_position p)) (λ last,
    result_bind (current_length p) (λ len,
    Ok (py_min (NInt last) len)))
  else
    result_bind (extrapolated now last_update p) (λ position,
    result_bind (current_length p) (λ len,
    if num_gt_int (NFloat position) len then Ok (NInt 0)
    else Ok (py_min (NFloat position) len))).

(** A float that is not negative: [+0.0], a positive finite float or
    [+inf]. *)
Definition float_signed_nonneg (f : float) : Prop :=
  match f with
  | S754_zero false | S754_finite false _ _ | S754_infinity false => True
  | _ => False
  end.

Section Environment.

(** [int(s)] on a string: its value, or [None] when Python raises
    [ValueError]. *)
Variable int_of_str : string → option Z.

(** [self.guild.get_channel(id)] *)
Variable get_channel : Z → option VoiceChannel.

(** [await self._node.get_tracks(query)] *)
Variable node_get_tracks : string → result (list Track).

(** [getattr(events, name, None)]: the event class of that name, given as
    its constructor; the constructed event is represented by its [name]. *)
Variable events_getattr : string → option (pydict → result string).

(** The builtin [int]. *)
Definition py_int (v : pyval) : result Z :=
  match v with
  | VInt z => Ok z
  | VBool b => Ok (Z.b2z b)
  | VStr s => match int_of_str s with Some z => Ok z | None => Raise ValueError end
  | VNone | VDict _ => Raise TypeError
  end.

(** ** Methods *)

(** [_update_state(data)] at clock reading [now].  [_last_update] is
    assigned before [state.get] is evaluated, which raises when [state] is
    not a dictionary. *)
Definition _update_state (now : Z) (data : pydict) : Py unit :=
  let state := dict_get data "state" in
  assign (set__last_update now);;
  match state with
  | VDict state =>
      assign (set__is_connected (dict_get state "connected"));;
      assign (set__last_position (dict_get state "position"))
  | _ => raise AttributeError
  end.

(** [_dispatch_voice_update(voice_data)] *)
Definition _dispatch_voice_update (voice_data : pydict) : Py unit :=
  vs ← attr _voice_state;
  if negb (bool_decide (({["sessionId"; "event"]} : gset string) = dom vs))
  then ret tt
  else
    g ← attr guildId;
    send [("op", VStr "voiceUpdate"); ("guildId", g)] voice_data.

(** [on_voice_server_update(data)] *)
Definition on_voice_server_update (data : pydict) : Py unit :=
  assign (λ p, set__voice_state (<["event" := VDict data]> (_voice_state p)) p);;
  vs ← attr _voice_state;
  _dispatch_voice_update vs.

(** [on_voice_state_update(data)] *)
Definition on_voice_state_update (data : pydict) : Py unit :=
  assign (λ p, set__voice_state
                 (<["sessionId" := dict_get data "session_id"]> (_voice_state p)) p);;
  let channel_id := dict_get data "channel_id" in
  if negb (truthy channel_id)
  then
    assign (set_channel None);;
    assign (set__voice_state ∅)
  else
    cid ← lift (py_int channel_id);
    assign (set_channel (get_channel cid));;
    vs ← attr _voice_state;
    _dispatch_voice_update (<["event" := VDict data]> vs).

(** [_dispatch_event(data)]; [getattr] wants a string for the name, calling
    [None] raises, and [bot.dispatch] hands the event to the bot's listeners
    without touching the player or the node. *)
Definition _dispatch_event (data : pydict) : Py unit :=
  match dict_get data "type" with
  | VStr event_type =>
      match events_getattr event_type with
      | Some event => _ ← lift (event data); ret tt
      | None => raise TypeError
      end
  | _ => raise TypeError
  end.

(** [get_tracks(query, ctx)] *)
Definition get_tracks (query : string) : Py (list Track) :=
  lift (node_get_tracks query).

(** [connect].  [guild.change_voice_state] talks to the voice gateway, not
    to the node.  The last statement creates the attribute [is_connected];
    [_is_connected] is left as it was. *)
Definition connect : Py unit :=
  assign (λ p, set_node (Build_Node ({[guild_id (_guild p)]} ∪ _players (_node p))) p);;
  assign (set_is_connected (Some true)).

(** [self.current = None]: [current] is a property declared with a getter
    only, so the assignment raises [AttributeError] and stores nothing. *)
Definition assign_current (v : option Track) : Py unit :=
  raise AttributeError.

(** [stop] *)
Definition stop : Py unit :=
  assign_current None;;
  g ← attr guildId;
  send [("op", VStr "stop"); ("guildId", g)] ∅.

(** [del self._node._players[self.guild.id]] *)
Definition del_player : Py unit :=
  p ← attr (λ p, p);
  let gid := guild_id (_guild p) in
  if bool_decide (gid ∈ _players (_node p))
  then assign (set_node (Build_Node (_players (_node p) ∖ {[gid]})))
  else raise KeyError.

(** [disconnect]; [guild.change_voice_state] and [cleanup] act on the voice
    gateway and on the client's list of voice connections. *)
Definition disconnect : Py unit :=
  stop;;
  assign (set_channel None);;
  assign (set__is_connected (VBool false));;
  del_player.

(** [destroy] *)
Definition destroy : Py unit :=
  disconnect;;
  g ← attr guildId;
  send [("op", VStr "destroy"); ("guildId", g)] ∅.

(** [play(track, start_position)].  In the Spotify branch the track object
    itself receives the search result in [youtube_result], so the object
    stored in [_current] and returned carries it. *)
Definition play (track : Track) (start_position : Z) : Py (option Track) :=
  track ←
    (if spotify track
     then
       found ← lift (node_get_tracks (search_type track));
       match found with
       | spotify_track :: _ =>
           let track := set_youtube_result track spotify_track in
           g ← attr guildId;
           send [("op", VStr "play"); ("guildId", g);
                 ("track", VStr (track_id spotify_track));
                 ("startTime", VInt start_position);
                 ("endTime", VInt (length spotify_track));
                 ("noReplace", VBool false)] ∅;;
           ret track
       | [] => raise IndexError
       end
     else
       g ← attr guildId;
       send [("op", VStr "play"); ("guildId", g);
             ("track", VStr (track_id track));
             ("startTime", VInt start_position);
             ("endTime", VInt (length track));
             ("noReplace", VBool false)] ∅;;
       ret track);
  assign (set__current (Some track));;
  attr _current.

(** [seek(position)]; the [or] evaluates [self.current.length] only when
    [position < 0] is false. *)
Definition seek (position : Z) : Py Z :=
  invalid ←
    (if position <? 0 then ret true
     else len ← expr current_length; ret (position >? len));
  if invalid : bool then raise TrackInvalidPosition
  else
    g ← attr guildId;
    send [("op", VStr "seek"); ("guildId", g); ("position", VInt position)] ∅;;
    attr _position.

(** [set_pause(pause)] *)
Definition set_pause (pause : bool) : Py bool :=
  g ← attr guildId;
  send [("op", VStr "pause"); ("guildId", g); ("pause", VBool pause)] ∅;;
  assign (set__paused pause);;
  attr _paused.

(** [set_volume(volume)] *)
Definition set_volume (volume : Z) : Py Z :=
  g ← attr guildId;
  send [("op", VStr "volume"); ("guildId", g); ("volume", VInt volume)] ∅;;
  assign (set__volume volume);;
  attr _volume.

(** [set_filter(filter)] at clock reading [now]. *)
Definition set_filter (now : Z) (filter : Filter) : Py Filter :=
  g ← attr guildId;
  send [("op", VStr "filters"); ("guildId", g)] (payload filter);;
  pos ← expr (position now);
  seek pos;;
  assign (set__filter (Some filter));;
  ret filter.

(** ** Calls and reachable players *)

(** A call of one of the player's methods, with its arguments (and the
    clock reading for the methods that read the clock). *)
Inductive call : Type :=
  | Call_update_state (now : Z) (data : pydict)
  | Call_dispatch_voice_update (voice_data : pydict)
  | Call_on_voice_server_update (data : pydict)
  | Call_on_voice_state_update (data : pydict)
  | Call_dispatch_event (data : pydict)
  | Call_get_tracks (query : string)
  | Call_connect
  | Call_stop
  | Call_disconnect
  | Call_destroy
  | Call_play (track : Track) (start_position : Z)
  | Call_seek (position : Z)
  | Call_set_pause (pause : bool)
  | Call_set_volume (volume : Z)
  | Call_set_filter (now : Z) (filter : Filter).

Definition ignore {A} (m : Py A) : Py unit := _ ← m; ret tt.

Definition run (c : call) : Py unit :=
  match c with
  | Call_update_state now data => _update_state now data
  | Call_dispatch_voice_update voice_data => _dispatch_voice_update voice_data
  | Call_on_voice_server_update data => on_voice_server_update data
  | Call_on_voice_state_update data => on_voice_state_update data
  | Call_dispatch_event data => _dispatch_event data
  | Call_get_tracks query => ignore (get_tracks query)
  | Call_connect => connect
  | Call_stop => stop
  | Call_disconnect => disconnect
  | Call_destroy => destroy
  | Call_play track start_position => ignore (play track start_position)
  | Call_seek position => ignore (seek position)
  | Call_set_pause pause => ignore (set_pause pause)
  | Call_set_volume volume => ignore (set_volume volume)
  | Call_set_filter now filter => ignore (set_filter now filter)
  end.

(** The players that exist: a freshly constructed one, and whatever a call
    leaves behind (whether it returned or raised). *)
Inductive reachable : Player → Prop :=
  | reachable_init ch node : reachable (init ch node)
  | reachable_step p c : reachable p → reachable (final (run c p)).

(** ** Compositional facts about the monad *)

(** [m] leaves the observation [f] of the player as it was. *)
Definition preserves {A B} (f : Player → B) (m : Py A) : Prop :=
  ∀ p, f (final (m p)) = f p.

(** Every message [m] sends satisfies [Q]. *)
Definition sends_only {A} (Q : pydict → Prop) (m : Py A) : Prop :=
  ∀ p, Forall Q (sent (m p)).

(** A message is not a "voiceUpdate". *)
Definition not_voice_update (kw : pydict) : Prop :=
  kw !! "op" ≠ Some (VStr "voiceUpdate").

(** Started from a player that satisfies [P], [m] sends only messages that
    satisfy [Q] and leaves a player that satisfies [P]. *)
Definition sends_from {A} (P : Player → Prop) (Q : pydict → Prop) (m : Py A) : Prop :=
  ∀ p, P p → Forall Q (sent (m p)) ∧ P (final (m p)).

(** The operations of the node's protocol that [player.py] names. *)
Definition protocol_ops : list string :=
  ["voiceUpdate"; "stop"; "destroy"; "play"; "seek"; "pause"; "volume"; "filters"].

(** A message that names one of the protocol's operations and is addressed
    to the guild [g]. *)
Definition addressed_to (g : Guild) (kw : pydict) : Prop :=
  kw !! "guildId" = Some (VStr (pretty (guild_id g)))
  ∧ ∃ op, kw !! "op" = Some (VStr op) ∧ op ∈ protocol_ops.

(** The keys the voice state may hold. *)
Definition voice_keys : gset string := {["sessionId"; "event"]}.

(** ** Sample data *)

Definition sample_guild : Guild := Build_Guild 42.
Definition sample_channel : VoiceChannel := Build_VoiceChannel 7 sample_guild.
Definition sample_node : Node := Build_Node ∅.

(** A player as [__init__] leaves it: no track, not connected. *)
Definition fresh_player : Player := init sample_channel sample_node.

Definition sample_track : Track := Build_Track "QAAAjQIAJVJpY2s" 1000 false "ytsearch" None.

(** Connected, playing [sample_track], last reported at 500 ms when the
    clock showed 0. *)
Definition playing_player : Player :=
  set__last_position (VInt 500)
    (set__is_connected (VBool true) (set__current (Some sample_track) fresh_player)).

(** The same player, paused. *)
Definition paused_player : Player := set__paused true playing_player.

Definition sample_filter : Filter :=
  Build_Filter {["timescale" := VDict {["speed" := VInt 2]}]}.

Definition sample_state_update : pydict :=
  {["op" := VStr "playerUpdate";
    "state" := VDict {["connected" := VBool true; "position" := VInt 1234]}]}.

Definition sample_server_update : pydict :=
  {["token" := VStr "tok"; "endpoint" := VStr "eu.example"]}.

(** A player that has buffered a session id. *)
Definition session_player : Player :=
  set__voice_state {["sessionId" := VStr "abc"]} fresh_player.

(** The message [on_voice_server_update] sends for [session_player]. *)
Definition sample_voice_update : pydict :=
  list_to_map [("op", VStr "voiceUpdate"); ("guildId", VStr "42")]
    ∪ {["sessionId" := VStr "abc"; "event" := VDict sample_server_update]}.

(** An environment for running the examples. *)
Definition sample_int_of_str (s : string) : option Z := None.
Definition sample_get_channel (i : Z) : option VoiceChannel := Some sample_channel.
Definition sample_node_get_tracks (q : string) : result (list Track) := Ok [sample_track].
Definition sample_events_getattr (n : string) : option (pydict → result string) := None.

(** A Spotify track, to be resolved by a search on the node. *)
Definition sample_spotify_track : Track :=
  Build_Track "" 215000 true "ytmsearch:Artist - Title" None.

(** A node whose search finds nothing. *)
Definition empty_node_get_tracks (q : string) : result (list Track) := Ok [].

(** A voice-state payload that names a channel, and one that names none. *)
Definition sample_voice_state_join : pydict :=
  {["session_id" := VStr "abc"; "channel_id" := VInt 7]}.
Definition sample_voice_state_leave : pydict :=
  {["session_id" := VStr "abc"; "channel_id" := VNone]}.
Definition sample_voice_state_text : pydict :=
  {["session_id" := VStr "abc"; "channel_id" := VStr "lobby"]}.

(** A filter whose payload carries the keyword [op]. *)
Definition reserved_filter : Filter := Build_Filter {["op" := VStr "play"]}.

(** A state update without a ["state"] entry, and one whose state is
    empty. *)
Definition sample_stateless_update : pydict := {["op" := VStr "playerUpdate"]}.
Definition sample_empty_state_update : pydict := {["state" := VDict ∅]}.

(** A state update that reports the player connected but no position. *)
Definition sample_connected_only_update : pydict :=
  {["state" := VDict {["connected" := VBool true]}]}.

(** Clock readings with a fraction: 1000.5 ms and 1250.25 ms, and a much
    later one, 10000.5 ms. *)
Definition sample_last_update : pynum := NFloat (float_of_scaled 2001 (-1)).
Definition sample_now : float := float_of_scaled 5001 (-2).
Definition sample_later : float := float_of_scaled 20001 (-1).

(** * Theorems *)

(** ** The monad *)

Lemma kwargs_empty explicit : kwargs explicit ∅ = Ok (list_to_map explicit).
Proof.
  unfold kwargs.
  replace (forallb _ explicit) with true.
  - by rewrite (right_id_L ∅ (∪)).
  - symmetry. apply forallb_forall. intros kv _.
    rewrite dom_empty_L, bool_decide_eq_false_2; [done | set_solver].
Qed.

Lemma outcome_eta {A} (o : Outcome A) :
  Build_Outcome (final o) (sent o) (value o) = o.
Proof. by destruct o. Qed.

Lemma bind_ret {A B} (a : A) (k : A → Py B) p : (ret a ≫= k) p = k a p.
Proof. apply outcome_eta. Qed.

Lemma bind_raise {A B} e (k : A → Py B) p :
  (raise e ≫= k) p = Build_Outcome p [] (Raise e).
Proof. done. Qed.

Lemma bind_attr {A B} (f : Player → A) (k : A → Py B) p :
  (attr f ≫= k) p = k (f p) p.
Proof. apply outcome_eta. Qed.

Lemma bind_assign {B} (f : Player → Player) (k : unit → Py B) p :
  (assign f ≫= k) p = k tt (f p).
Proof. apply outcome_eta. Qed.

Lemma bind_expr {A B} (f : Player → result A) (k : A → Py B) p :
  (expr f ≫= k) p =
  match f p with Ok a => k a p | Raise e => Build_Outcome p [] (Raise e) end.
Proof.
  unfold mbind, Py_bind, bind, expr; cbn. destruct (f p); [apply outcome_eta | done].
Qed.

Lemma bind_lift {A B} (r : result A) (k : A → Py B) p :
  (lift r ≫= k) p =
  match r with Ok a => k a p | Raise e => Build_Outcome p [] (Raise e) end.
Proof. apply (bind_expr (λ _, r)). Qed.

Lemma bind_node_send {B} kw (k : unit → Py B) p :
  (node_send kw ≫= k) p =
  Build_Outcome (final (k tt p)) (kw :: sent (k tt p)) (value (k tt p)).
Proof. done. Qed.

Lemma bind_assoc {A B C} (m : Py A) (k : A → Py B) (h : B → Py C) p :
  ((m ≫= k) ≫= h) p = (m ≫= (λ a, k a ≫= h)) p.
Proof.
  unfold mbind, Py_bind, bind; cbn.
  destruct (value (m p)); cbn; [|done].
  destruct (value (k a (final (m p)))); cbn; by rewrite ?app_assoc.
Qed.

Lemma bind_send {B} explicit star (k : unit → Py B) p :
  (send explicit star ≫= k) p =
  match kwargs explicit star with
  | Ok kw => Build_Outcome (final (k tt p)) (kw :: sent (k tt p)) (value (k tt p))
  | Raise e => Build_Outcome p [] (Raise e)
  end.
Proof.
  unfold send. rewrite bind_assoc, bind_lift. by destruct (kwargs explicit star).
Qed.

Lemma run_send explicit star p :
  send explicit star p =
  match kwargs explicit star with
  | Ok kw => Build_Outcome p [kw] (Ok tt)
  | Raise e => Build_Outcome p [] (Raise e)
  end.
Proof. unfold send. rewrite bind_lift. by destruct (kwargs explicit star). Qed.

Lemma run_ret {A} (a : A) p : ret a p = Build_Outcome p [] (Ok a).
Proof. done. Qed.

Lemma run_attr {A} (f : Player → A) p : attr f p = Build_Outcome p [] (Ok (f p)).
Proof. done. Qed.

Lemma run_assign f p : assign f p = Build_Outcome (f p) [] (Ok tt).
Proof. done. Qed.

Lemma run_raise {A} e p : @raise A e p = Build_Outcome p [] (Raise e).
Proof. done. Qed.

(** Running a method step by step. *)
Ltac py_step :=
  rewrite ?bind_assoc;
  first [ rewrite bind_ret | rewrite bind_raise | rewrite bind_attr
        | rewrite bind_assign | rewrite bind_expr | rewrite bind_lift
        | rewrite bind_send | rewrite bind_node_send
        | rewrite run_send | rewrite run_ret | rewrite run_attr
        | rewrite run_assign | rewrite run_raise ];
  rewrite ?kwargs_empty; cbn [final sent value].

Ltac py_run := repeat py_step.

(** A message keeps its explicit ["op"] keyword. *)
Lemma kwargs_op v rest star kw :
  kwargs (("op", v) :: rest) star = Ok kw → kw !! "op" = Some v.
Proof.
  unfold kwargs. case_match; [|done]. intros [= <-].
  apply lookup_union_Some_l. cbn. apply lookup_insert_eq.
Qed.

(** ** Playback commands *)

(** C1: for a track that is not a Spotify track, [play] sends exactly one
    message, the "play" message with the guild id, the track's id, the
    start position and the track's length as end time; it returns the
    track, which [current] returns afterwards, and changes nothing else. *)
Theorem play_sends_play_and_tracks_current (t : Track) (s : Z) (p : Player) :
  spotify t = false →
  sent (play t s p) =
    [list_to_map [("op", VStr "play"); ("guildId", VStr (pretty (guild_id (_guild p))));
                  ("track", VStr (track_id t)); ("startTime", VInt s);
                  ("endTime", VInt (length t)); ("noReplace", VBool false)]]
  ∧ value (play t s p) = Ok (Some t)
  ∧ current (final (play t s p)) = Some t
  ∧ final (play t s p) = set__current (Some t) p.
Proof.
  intros Hs. unfold play. rewrite Hs. py_run. done.
Qed.

(** C2: with a current track [t], [seek] raises [TrackInvalidPosition]
    exactly when the position is negative or beyond the track's length;
    when it raises, nothing is sent and the player is unchanged; otherwise
    it sends the "seek" message with that position and the guild id (and
    returns without raising). *)
Theorem seek_raises_iff_out_of_range (t : Track) (position : Z) (p : Player) :
  current p = Some t →
  (value (seek position p) = Raise TrackInvalidPosition
     ↔ (position < 0 ∨ position > length t))
  ∧ (value (seek position p) = Raise TrackInvalidPosition →
       sent (seek position p) = [] ∧ final (seek position p) = p)
  ∧ (¬ (position < 0 ∨ position > length t) →
       sent (seek position p) =
         [list_to_map [("op", VStr "seek");
                       ("guildId", VStr (pretty (guild_id (_guild p))));
                       ("position", VInt position)]]
       ∧ value (seek position p) = Ok (_position p)
       ∧ final (seek position p) = p).
Proof.
  intros Hcur. unfold seek.
  destruct (Z.ltb_spec position 0) as [Hneg | Hnonneg]; py_run.
  - split; [|split]; [split; [lia | done] | done | lia].
  - unfold current_length. rewrite Hcur. py_run.
    destruct (Z.gtb_spec position (length t)) as [Hbig | Hsmall]; py_run.
    + split; [|split]; [split; [lia | done] | done | lia].
    + split; [|split]; [split; [done | lia] | done | done].
Qed.

(** C3: a state update whose payload carries a connected flag [c] and a
    position [pos] leaves the player with [_is_connected = c],
    [_last_position = pos] and [_last_update] set to the clock reading;
    every other attribute keeps its value and nothing is sent. *)
Theorem update_state_mirrors_payload (now : Z) (data state : pydict) (c pos : pyval)
    (p : Player) :
  data !! "state" = Some (VDict state) →
  state !! "connected" = Some c →
  state !! "position" = Some pos →
  let p' := final (_update_state now data p) in
  _is_connected p' = c
  ∧ _last_position p' = pos
  ∧ _last_update p' = now
  ∧ p' = Build_Player (channel p) (_guild p) (_node p) (_current p) (_filter p)
           (_volume p) (_paused p) c (_position p) pos now (_voice_state p)
           (is_connected p)
  ∧ sent (_update_state now data p) = []
  ∧ value (_update_state now data p) = Ok tt.
Proof.
  intros Hstate Hc Hpos. unfold _update_state, dict_get.
  rewrite Hstate; cbn [from_option id]. rewrite Hc, Hpos. by py_run.
Qed.

(** C5 (as the code behaves): [stop] raises [AttributeError] at its first
    statement, the assignment to the getter-only property [current]; no
    "stop" message is sent and the current track stays. *)
Theorem stop_raises_before_sending (p : Player) :
  value (stop p) = Raise AttributeError
  ∧ sent (stop p) = []
  ∧ final (stop p) = p
  ∧ current (final (stop p)) = current p.
Proof. unfold stop, assign_current. by py_run. Qed.

(** C6: [set_pause] sends the "pause" message with the flag and the guild
    id, stores the flag in [_paused] and returns it; nothing else
    changes. *)
Theorem set_pause_sends_and_tracks (pause : bool) (p : Player) :
  sent (set_pause pause p) =
    [list_to_map [("op", VStr "pause");
                  ("guildId", VStr (pretty (guild_id (_guild p))));
                  ("pause", VBool pause)]]
  ∧ _paused (final (set_pause pause p)) = pause
  ∧ value (set_pause pause p) = Ok pause
  ∧ final (set_pause pause p) = set__paused pause p.
Proof. unfold set_pause. by py_run. Qed.

(** C10: while [_is_connected] is [False], [is_playing] and [is_paused]
    are both [False], whatever the current track and the pause flag. *)
Theorem not_connected_neither_playing_nor_paused (p : Player) :
  _is_connected p = VBool false →
  is_playing p = VBool false ∧ is_paused p = VBool false.
Proof. intros H. unfold is_playing, is_paused, py_and. by rewrite H. Qed.

(** ** The position property *)

Lemma is_playing_truthy (p : Player) :
  truthy (is_playing p) = true →
  truthy (_is_connected p) = true ∧ ∃ t, current p = Some t.
Proof.
  unfold is_playing, py_and.
  destruct (truthy (_is_connected p)) eqn:Hc; [|congruence].
  cbn. intros [t Ht]%bool_decide_eq_true_1. eauto.
Qed.

(** *** Signs in binary64 arithmetic *)

Lemma shr_1_nonneg mrs : 0 ≤ shr_m mrs → 0 ≤ shr_m (shr_1 mrs).
Proof. destruct mrs as [[|[q|q|]|[q|q|]] r s]; cbn; lia. Qed.

Lemma iter_shr_1_nonneg n : ∀ mrs, 0 ≤ shr_m mrs → 0 ≤ shr_m (iter_pos shr_1 n mrs).
Proof.
  induction n as [n IH|n IH|]; intros mrs Hm; cbn.
  - by apply IH, IH, shr_1_nonneg.
  - by apply IH, IH.
  - by apply shr_1_nonneg.
Qed.

Lemma shr_fexp_nonneg m e l :
  0 ≤ m → 0 ≤ shr_m (shr_fexp float_prec float_emax m e l).1.
Proof.
  intros Hm. unfold shr_fexp, shr.
  assert (0 ≤ shr_m (shr_record_of_loc m l)) as Hrec
    by (by destruct l as [|[]]).
  destruct (_ - e); cbn; [done | by apply iter_shr_1_nonneg | done].
Qed.

Lemma round_nearest_even_nonneg m l : 0 ≤ m → 0 ≤ round_nearest_even m l.
Proof. intros Hm. destruct l as [|[]]; cbn; [done | | done | lia]. destruct (Z.even m); lia. Qed.

(** Rounding a nonnegative magnitude gives a zero, a finite float or an
    infinity of the requested sign, never a NaN. *)
Lemma binary_round_aux_sign (sx : bool) mx ex lx :
  0 ≤ mx →
  match binary_round_aux float_prec float_emax sx mx ex lx with
  | S754_zero s | S754_infinity s | S754_finite s _ _ => s = sx
  | S754_nan => False
  end.
Proof.
  intros Hm. unfold binary_round_aux.
  pose proof (shr_fexp_nonneg mx ex lx Hm) as H1.
  destruct (shr_fexp float_prec float_emax mx ex lx) as [mrs' e'].
  cbn [fst] in H1.
  pose proof (shr_fexp_nonneg _ e' loc_Exact
                (round_nearest_even_nonneg _ (loc_of_shr_record mrs') H1)) as H2.
  destruct (shr_fexp float_prec float_emax _ e' loc_Exact) as [mrs'' e''].
  cbn [fst] in H2. destruct (shr_m mrs''); [done | | lia].
  by destruct (e'' <=? _).
Qed.

Lemma binary_normalize_nonneg m e :
  0 ≤ m → float_signed_nonneg (binary_normalize float_prec float_emax m e false).
Proof.
  intros Hm. destruct m as [|q|q]; cbn; [done | | lia].
  unfold binary_round. destruct (shl_align _ _ _) as [mz ez].
  pose proof (binary_round_aux_sign false (Zpos mz) ez loc_Exact) as H.
  destruct (binary_round_aux _ _ _ _ _ _) as [[]|[]| |[] ? ?]; cbn; try done;
    by (exfalso; apply H) || by discriminate H.
Qed.

Lemma float_of_int_nonneg z f :
  0 ≤ z → float_of_int z = Ok f → float_signed_nonneg f.
Proof.
  intros Hz. unfold float_of_int.
  pose proof (binary_normalize_nonneg z 0 Hz) as H.
  destruct (binary_normalize _ _ z 0 false); intros [= <-]; done.
Qed.

(** A float that compares at least 0 is a zero, a positive finite float or
    [+inf]. *)
Lemma int_le_float_shape (d : float) :
  int_le_num 0 (NFloat d) = true →
  match d with
  | S754_zero _ | S754_finite false _ _ | S754_infinity false => True
  | _ => False
  end.
Proof.
  unfold int_le_num, num_compare_int, float_compare_int, cond_Zopp.
  destruct d as [s|[]| |[] m e]; try done.
  destruct (Z.leb_spec 0 e) as [He|He].
  - pose proof (Z.pow_pos_nonneg 2 e ltac:(lia) He) as Hpow.
    destruct (Z.compare_spec (- Z.pos m * 2 ^ e) 0); [nia | done | nia].
  - rewrite Z.mul_0_l. done.
Qed.

Lemma float_signed_nonneg_compare (f : float) :
  float_signed_nonneg f → int_le_num 0 (NFloat f) = true.
Proof.
  unfold int_le_num, num_compare_int, float_compare_int, cond_Zopp.
  destruct f as [[]|[]| |[] m e]; try done.
  intros _. destruct (Z.leb_spec 0 e) as [He|He].
  - pose proof (Z.pow_pos_nonneg 2 e ltac:(lia) He) as Hpow.
    destruct (Z.compare_spec (Z.pos m * 2 ^ e) 0); [nia | nia | done].
  - rewrite Z.mul_0_l. done.
Qed.

(** The sum of a nonnegative float and a float that compares at least 0 is
    not negative and not a NaN. *)
Lemma float_add_nonneg (x d : float) :
  float_signed_nonneg x → int_le_num 0 (NFloat d) = true →
  float_signed_nonneg (float_add x d).
Proof.
  intros Hx Hd%int_le_float_shape.
  destruct x as [[]|[]| |[] mx ex]; try done;
    destruct d as [[]|[]| |[] md ed]; try done.
  unfold float_add, SFadd. cbn [cond_Zopp].
  apply binary_normalize_nonneg. lia.
Qed.

(** A float that is not above an int and is not negative lies below or at
    that int. *)
Lemma not_gt_le (f : float) (n : Z) :
  float_signed_nonneg f → num_gt_int (NFloat f) n = false →
  num_le_int (NFloat f) n = true.
Proof.
  unfold num_gt_int, num_le_int, num_compare_int, float_compare_int.
  destruct f as [[]|[]| |[] m e]; try done; intros _;
    repeat case_match; done.
Qed.

(** Deciding a goal about integer comparisons by their cases. *)
Ltac compare_cases :=
  repeat match goal with
  | |- context [?a ?= ?b] => destruct (Z.compare_spec a b)
  end; (done || lia).

Lemma py_min_int (a n : Z) : py_min (NInt a) n = NInt (Z.min a n).
Proof.
  unfold py_min, num_gt_int. cbn.
  destruct (Z.compare_spec a n); f_equal; lia.
Qed.

(** Where [position] does not read the clock (no track playing, or the
    player paused), the two definitions give the same number. *)
Lemma position_float_without_clock (now : float) (last_update : pynum)
    (now' : Z) (p : Player) :
  truthy (is_playing p) = false ∨ truthy (is_paused p) = true →
  position_float now last_update p =
    match position now' p with Ok z => Ok (NInt z) | Raise e => Raise e end.
Proof.
  intros Hcase. unfold position_float, position.
  destruct (negb (truthy (is_playing p)) || negb (bool_decide (is_Some (current p))))
    eqn:Hfirst; [done|].
  destruct Hcase as [Hidle | Hpaused].
  - by rewrite Hidle in Hfirst.
  - rewrite Hpaused. destruct (py_num (_last_position p)); cbn; [|done].
    destruct (current_length p); cbn; [|done]. by rewrite py_min_int.
Qed.

(** C9 (amended): when the last reported position is a nonnegative integer
    that converts to a float, and the elapsed time the property computes
    from the clock and [_last_update] is not negative (the last update is
    not in the future), [position] returns a number that lies between 0 and
    the length of the current track (for a track of nonnegative length);
    it is 0 whenever no track is playing, and whenever the player is not
    paused and the extrapolated position exceeds the length.  A paused
    player reports [min(last, length)] and does not extrapolate.  The
    clock reading and the value of [_last_update] are arbitrary Python
    numbers. *)
Theorem position_float_bounded_and_zero_cases (now : float) (last_update : pynum)
    (p : Player) (last : Z) (last_f difference : float) :
  _last_position p = VInt last → 0 ≤ last →
  float_of_int last = Ok last_f →
  float_sub_num now last_update = Ok difference →
  int_le_num 0 (NFloat difference) = true →
  ∃ r, position_float now last_update p = Ok r
    ∧ (∀ t, current p = Some t → 0 ≤ length t →
         int_le_num 0 r = true ∧ num_le_int r (length t) = true)
    ∧ (truthy (is_playing p) = false → r = NInt 0)
    ∧ (∀ t, current p = Some t → truthy (is_paused p) = false →
         extrapolated now last_update p = Ok (float_add last_f difference)
         ∧ (num_gt_int (NFloat (float_add last_f difference)) (length t) = true →
            r = NInt 0))
    ∧ (∀ t, current p = Some t → truthy (is_playing p) = true →
         truthy (is_paused p) = true → r = NInt (Z.min last (length t))).
Proof.
  intros Hlast Hnonneg Hconv Hdiff Helapsed.
  assert (extrapolated now last_update p = Ok (float_add last_f difference)) as Hext.
  { unfold extrapolated, int_add_float. rewrite Hdiff, Hlast. cbn. by rewrite Hconv. }
  assert (float_signed_nonneg (float_add last_f difference)) as Hsign
    by (apply float_add_nonneg; [by eapply float_of_int_nonneg | done]).
  unfold position_float, current_length. rewrite Hext, Hlast.
  cbn [py_num result_bind].
  destruct (truthy (is_playing p)) eqn:Hplaying; cbn [negb orb].
  - destruct (is_playing_truthy p Hplaying) as [_ [t Ht]]. rewrite Ht.
    rewrite bool_decide_eq_true_2 by eauto. cbn [negb result_bind].
    destruct (truthy (is_paused p)) eqn:Hpaused.
    + eexists; split; [done|]. rewrite py_min_int.
      split_and!; intros; simplify_eq; try done.
      unfold int_le_num, num_le_int, num_compare_int.
      split; compare_cases.
    + destruct (num_gt_int (NFloat (float_add last_f difference)) (length t))
        eqn:Hgt.
      * exists (NInt 0). split; [done|].
        split_and!; intros; simplify_eq; try done.
        unfold int_le_num, num_le_int, num_compare_int.
        split; compare_cases.
      * exists (NFloat (float_add last_f difference)).
        unfold py_min. rewrite Hgt. split; [done|].
        split_and!; intros; simplify_eq; try done.
        -- split; [by apply float_signed_nonneg_compare | by apply not_gt_le].
        -- split; [done | congruence].
  - exists (NInt 0). split; [done|].
    split_and!; intros; simplify_eq; try done.
    unfold int_le_num, num_le_int, num_compare_int.
    split; compare_cases.
Qed.

(** ** Filters *)

(** With a current track of nonnegative length, on a player that is not
    playing or is paused (so that [position] does not read the clock), and
    for a payload that names neither [op] nor [guildId] nor [self] (the
    parameter of [Node.send] itself), [set_filter] sends the "filters"
    message carrying the payload, seeks to the current position, stores
    the filter and returns it. *)
Lemma set_filter_with_track (now : Z) (f : Filter) (p : Player) (t : Track)
    (last : Z) (kw : pydict) :
  current p = Some t → 0 ≤ length t →
  truthy (is_playing p) = false
    ∨ (truthy (is_paused p) = true ∧ _last_position p = VInt last ∧ 0 ≤ last) →
  payload f !! "self" = None →
  kwargs [("op", VStr "filters"); ("guildId", guildId p)] (payload f) = Ok kw →
  ∃ r, position now p = Ok r
    ∧ r = (if truthy (is_playing p) then Z.min last (length t) else 0)
    ∧ sent (set_filter now f p) =
        [kw; list_to_map [("op", VStr "seek"); ("guildId", guildId p);
                          ("position", VInt r)]]
    ∧ value (set_filter now f p) = Ok f
    ∧ filter (final (set_filter now f p)) = Some f.
Proof.
  intros Hcur Hlen Hcase _ Hkw.
  assert (∃ r, position now p = Ok r
               ∧ r = (if truthy (is_playing p) then Z.min last (length t) else 0)
               ∧ 0 ≤ r ≤ length t) as (r & Hr & Hval & Hrange).
  { unfold position, current_length. rewrite Hcur.
    rewrite bool_decide_eq_true_2 by eauto. cbn [negb]. rewrite orb_false_r.
    destruct (truthy (is_playing p)) eqn:Hplaying; cbn [negb].
    - destruct Hcase as [|(Hpaused & Hlast & Hnonneg)]; [done|].
      rewrite Hpaused, Hlast. cbn [py_num result_bind].
      eexists; split_and!; [done | done | lia | lia].
    - exists 0. split_and!; [done | done | lia | lia]. }
  exists r. split; [done|]. split; [done|]. unfold set_filter, seek.
  py_step. py_step. rewrite Hkw. py_step. rewrite Hr.
  destruct (Z.ltb_spec r 0); [lia|]. py_run.
  unfold current_length. rewrite Hcur.
  destruct (Z.gtb_spec r (length t)); [lia|]. by py_run.
Qed.

(** Without a current track [set_filter] raises and the filter is not
    stored. *)
Lemma set_filter_without_track (now : Z) (f : Filter) (p : Player) :
  current p = None →
  filter (final (set_filter now f p)) = filter p
  ∧ ∃ e, value (set_filter now f p) = Raise e.
Proof.
  intros Hcur. unfold set_filter, seek.
  py_step. py_step. destruct (kwargs _ _); [|by eauto].
  py_step.
  assert (position now p = Ok 0) as ->.
  { unfold position. rewrite Hcur.
    rewrite (bool_decide_eq_false_2 (is_Some None)) by (by intros [? ?]).
    by rewrite orb_true_r. }
  change (0 <? 0) with false. cbv iota. py_run.
  unfold current_length. rewrite Hcur. by eauto.
Qed.

(** C7 (as the code behaves): on a player without a current track,
    [set_filter] sends the "filters" message and then raises
    [AttributeError] from [seek], which reads [self.current.length]; the
    filter is not stored and [filter] still returns [None]. *)
Theorem set_filter_without_track_raises :
  let o := set_filter 0 sample_filter fresh_player in
  current fresh_player = None
  ∧ sent o = [list_to_map [("op", VStr "filters"); ("guildId", VStr "42")]
                ∪ payload sample_filter]
  ∧ value o = Raise AttributeError
  ∧ filter (final o) = None.
Proof. vm_compute. done. Qed.

(** ** What a method preserves and what it sends *)

Lemma preserves_ret {A B} (f : Player → B) (a : A) : preserves f (ret a).
Proof. done. Qed.

Lemma preserves_raise {A B} (f : Player → B) e : preserves f (@raise A e).
Proof. done. Qed.

Lemma preserves_attr {A B} (f : Player → B) (g : Player → A) : preserves f (attr g).
Proof. done. Qed.

Lemma preserves_expr {A B} (f : Player → B) (g : Player → result A) :
  preserves f (expr g).
Proof. done. Qed.

Lemma preserves_lift {A B} (f : Player → B) (r : result A) : preserves f (lift r).
Proof. done. Qed.

Lemma preserves_assign {B} (f : Player → B) (g : Player → Player) :
  (∀ p, f (g p) = f p) → preserves f (assign g).
Proof. intros H p. apply H. Qed.

Lemma preserves_bind {A B C} (f : Player → C) (m : Py A) (k : A → Py B) :
  preserves f m → (∀ a, preserves f (k a)) → preserves f (m ≫= k).
Proof.
  intros Hm Hk p. unfold mbind, Py_bind, bind.
  destruct (value (m p)) as [a|e]; cbn; [|apply Hm].
  rewrite Hk. apply Hm.
Qed.

Lemma preserves_send {B} (f : Player → B) explicit star :
  preserves f (send explicit star).
Proof. intros p. rewrite run_send. by destruct (kwargs explicit star). Qed.

Lemma sends_only_ret {A} Q (a : A) : sends_only Q (ret a).
Proof. intros p. constructor. Qed.

Lemma sends_only_raise {A} Q e : sends_only Q (@raise A e).
Proof. intros p. constructor. Qed.

Lemma sends_only_attr {A} Q (g : Player → A) : sends_only Q (attr g).
Proof. intros p. constructor. Qed.

Lemma sends_only_expr {A} Q (g : Player → result A) : sends_only Q (expr g).
Proof. intros p. constructor. Qed.

Lemma sends_only_lift {A} Q (r : result A) : sends_only Q (lift r).
Proof. intros p. constructor. Qed.

Lemma sends_only_assign Q g : sends_only Q (assign g).
Proof. intros p. constructor. Qed.

Lemma sends_only_bind {A B} Q (m : Py A) (k : A → Py B) :
  sends_only Q m → (∀ a, sends_only Q (k a)) → sends_only Q (m ≫= k).
Proof.
  intros Hm Hk p. unfold mbind, Py_bind, bind.
  destruct (value (m p)) as [a|e]; cbn; [|apply Hm].
  apply Forall_app. split; [apply Hm | apply Hk].
Qed.

Lemma sends_only_send_op (op : string) rest star :
  op ≠ "voiceUpdate" →
  sends_only not_voice_update (send (("op", VStr op) :: rest) star).
Proof.
  intros Hop p. rewrite run_send.
  destruct (kwargs _ _) as [kw|e] eqn:Hkw; cbn; constructor; [|constructor].
  unfold not_voice_update. rewrite (kwargs_op _ _ _ _ Hkw). congruence.
Qed.

(** Decomposing a method into its statements. *)
Ltac py_cases :=
  repeat match goal with
  | |- preserves _ (_ ≫= _) => apply preserves_bind; [|intros ?]
  | |- preserves _ (ret _) => apply preserves_ret
  | |- preserves _ (raise _) => apply preserves_raise
  | |- preserves _ (attr _) => apply preserves_attr
  | |- preserves _ (expr _) => apply preserves_expr
  | |- preserves _ (lift _) => apply preserves_lift
  | |- preserves _ (send _ _) => apply preserves_send
  | |- preserves _ (assign _) => apply preserves_assign; intros ?; reflexivity
  | |- sends_only _ (_ ≫= _) => apply sends_only_bind; [|intros ?]
  | |- sends_only _ (ret _) => apply sends_only_ret
  | |- sends_only _ (raise _) => apply sends_only_raise
  | |- sends_only _ (attr _) => apply sends_only_attr
  | |- sends_only _ (expr _) => apply sends_only_expr
  | |- sends_only _ (lift _) => apply sends_only_lift
  | |- sends_only _ (assign _) => apply sends_only_assign
  | |- sends_only not_voice_update (send _ _) => apply sends_only_send_op; discriminate
  | |- _ (if ?b then _ else _) => destruct b
  | |- _ (match ?x with _ => _ end) => destruct x
  end.

(** No method assigns [_position]. *)
Lemma run_preserves_position (c : call) : preserves _position (run c).
Proof.
  destruct c; cbn [run];
    unfold ignore, _update_state, _dispatch_voice_update, on_voice_server_update,
      on_voice_state_update, _dispatch_event, get_tracks, connect, destroy,
      disconnect, stop, del_player, assign_current, play, seek, set_pause,
      set_volume, set_filter, _dispatch_voice_update;
    py_cases; unfold seek; py_cases.
Qed.

Lemma reachable_position (p : Player) : reachable p → _position p = 0.
Proof.
  induction 1 as [ch node | p c _ IH]; [done|].
  by rewrite run_preserves_position.
Qed.

(** C8: [_position] is 0 after [__init__] and no call changes it, so on
    every player that exists a [seek] that returns, returns 0, whatever
    position it was asked for. *)
Theorem seek_returns_zero :
  (∀ ch node, _position (init ch node) = 0)
  ∧ (∀ c p, _position (final (run c p)) = _position p)
  ∧ (∀ p position r,
       reachable p → value (seek position p) = Ok r → r = 0).
Proof.
  split; [done|]. split; [intros c p; apply run_preserves_position|].
  intros p position r Hreach%reachable_position. unfold seek.
  destruct (position <? 0); py_run; [done|].
  destruct (current_length p) as [len|]; py_run; [|done].
  destruct (position >? len); py_run; [done|]. congruence.
Qed.

(** ** Voice updates *)

Lemma sent_dispatch_voice_update (voice_data : pydict) (p : Player) :
  final (_dispatch_voice_update voice_data p) = p
  ∧ (sent (_dispatch_voice_update voice_data p) ≠ [] →
       dom (_voice_state p) = {["sessionId"; "event"]}).
Proof.
  unfold _dispatch_voice_update. py_step.
  case_bool_decide as Hdom; cbn [negb]; py_run; [|done].
  by destruct (kwargs _ _).
Qed.

Lemma run_sends_voice_update (c : call) (p : Player) :
  sends_only not_voice_update (run c)
  ∨ (sent (run c p) ≠ [] →
       dom (_voice_state (final (run c p))) = {["sessionId"; "event"]}).
Proof.
  destruct c; cbn [run];
    try (left;
         unfold ignore, _update_state, _dispatch_event, get_tracks, connect,
           destroy, disconnect, stop, del_player, assign_current, play, seek,
           set_pause, set_volume, set_filter;
         py_cases; unfold seek; py_cases; fail);
    right.
  - destruct (sent_dispatch_voice_update voice_data p) as [-> H]. done.
  - unfold on_voice_server_update. py_step. py_step.
    match goal with |- context [_dispatch_voice_update ?vd ?q] =>
      destruct (sent_dispatch_voice_update vd q) as [-> H] end.
    done.
  - unfold on_voice_state_update. py_step.
    destruct (truthy (dict_get data "channel_id")); cbn [negb]; py_run; [|done].
    destruct (py_int _); [|done]. py_step. py_step.
    match goal with |- context [_dispatch_voice_update ?vd ?q] =>
      destruct (sent_dispatch_voice_update vd q) as [-> H] end.
    done.
Qed.

(** C4: a "voiceUpdate" message is sent only by a call that leaves the
    buffered voice state with exactly the keys [sessionId] and [event]
    (the state the guard of [_dispatch_voice_update] has just tested); in
    particular [on_voice_server_update] sends nothing while no session id
    is buffered. *)
Theorem voice_update_needs_session_and_event :
  (∀ (c : call) (p : Player) (kw : pydict),
     kw ∈ sent (run c p) →
     kw !! "op" = Some (VStr "voiceUpdate") →
     dom (_voice_state (final (run c p))) = {["sessionId"; "event"]})
  ∧ (∀ (data : pydict) (p : Player),
       "sessionId" ∉ dom (_voice_state p) →
       sent (on_voice_server_update data p) = []).
Proof.
  split.
  - intros c p kw Hin Hop.
    destruct (run_sends_voice_update c p) as [Hnot | Hdom].
    + specialize (Hnot p). rewrite Forall_forall in Hnot.
      by destruct (Hnot kw Hin).
    + apply Hdom. intros Hnil. rewrite Hnil in Hin. by apply not_elem_of_nil in Hin.
  - intros data p Hsession. unfold on_voice_server_update, _dispatch_voice_update.
    py_run. rewrite bool_decide_eq_false_2; [by py_run|].
    cbn [_voice_state set__voice_state]. rewrite dom_insert_L. intros Heq.
    assert ("sessionId" ∈ ({["sessionId"; "event"]} : gset string)) as Hin
      by (by apply elem_of_union_l, elem_of_singleton).
    rewrite Heq in Hin.
    apply elem_of_union in Hin as [Hev%elem_of_singleton | Hin]; [discriminate | done].
Qed.

(** ** Further playback commands *)

(** [set_volume] sends the "volume" message with the volume and the guild
    id, stores the volume and returns it; nothing else changes. *)
Theorem set_volume_sends_and_tracks (v : Z) (p : Player) :
  sent (set_volume v p) =
    [list_to_map [("op", VStr "volume");
                  ("guildId", VStr (pretty (guild_id (_guild p))));
                  ("volume", VInt v)]]
  ∧ value (set_volume v p) = Ok v
  ∧ volume (final (set_volume v p)) = v
  ∧ final (set_volume v p) = set__volume v p.
Proof. unfold set_volume. by py_run. Qed.

(** For a Spotify track whose search on the node finds [r] first, [play]
    sends one "play" message that names [r]'s id and [r]'s length as end
    time; the track stored in [_current] and returned is the Spotify track
    with [r] recorded as its [youtube_result]. *)
Theorem play_spotify_plays_search_result (t r : Track) (rest : list Track)
    (s : Z) (p : Player) :
  spotify t = true →
  node_get_tracks (search_type t) = Ok (r :: rest) →
  sent (play t s p) =
    [list_to_map [("op", VStr "play"); ("guildId", VStr (pretty (guild_id (_guild p))));
                  ("track", VStr (track_id r)); ("startTime", VInt s);
                  ("endTime", VInt (length r)); ("noReplace", VBool false)]]
  ∧ value (play t s p) = Ok (Some (set_youtube_result t r))
  ∧ final (play t s p) = set__current (Some (set_youtube_result t r)) p.
Proof.
  intros Hs Hfound. unfold play. rewrite Hs. py_step.
  rewrite Hfound. by py_run.
Qed.

(** For a Spotify track whose search finds nothing, [play] raises
    [IndexError]; when the search itself raises, [play] raises the same
    exception.  Either way nothing is sent and the player, its current
    track included, is unchanged. *)
Theorem play_spotify_without_result_raises (t : Track) (s : Z) (p : Player) :
  spotify t = true →
  (node_get_tracks (search_type t) = Ok [] →
     play t s p = Build_Outcome p [] (Raise IndexError))
  ∧ (∀ e, node_get_tracks (search_type t) = Raise e →
       play t s p = Build_Outcome p [] (Raise e)).
Proof.
  intros Hs. unfold play. rewrite Hs.
  split; [intros Hfound | intros e Hfound]; py_step; rewrite Hfound; by py_run.
Qed.

Lemma stop_outcome (p : Player) : stop p = Build_Outcome p [] (Raise AttributeError).
Proof. unfold stop, assign_current. by py_run. Qed.

(** [disconnect] and [destroy] begin with [stop], whose assignment to the
    getter-only property [current] raises: both raise [AttributeError],
    send nothing (no "destroy" message) and leave the player as it was,
    still registered with the node. *)
Theorem disconnect_and_destroy_raise (p : Player) :
  disconnect p = Build_Outcome p [] (Raise AttributeError)
  ∧ destroy p = Build_Outcome p [] (Raise AttributeError).
Proof.
  assert (disconnect p = Build_Outcome p [] (Raise AttributeError)) as Hd.
  { unfold disconnect, mbind, Py_bind, bind. by rewrite stop_outcome. }
  split; [done|]. unfold destroy, mbind, Py_bind, bind. by rewrite Hd.
Qed.

(** [connect] registers the guild with the node and creates the attribute
    [is_connected], but sends nothing to the node and does not assign
    [_is_connected]: [is_playing] and [is_paused] answer as before. *)
Theorem connect_registers_without_marking_connected (p : Player) :
  let p' := final (connect p) in
  value (connect p) = Ok tt
  ∧ sent (connect p) = []
  ∧ guild_id (_guild p) ∈ _players (_node p')
  ∧ is_connected p' = Some true
  ∧ _is_connected p' = _is_connected p
  ∧ is_playing p' = is_playing p
  ∧ is_paused p' = is_paused p.
Proof.
  unfold connect. py_run. cbn.
  split_and!; try done. by apply elem_of_union_l, elem_of_singleton.
Qed.

(** ** Seeking *)

(** Without a current track [seek] sends nothing and leaves the player as
    it was: a negative position raises [TrackInvalidPosition], any other
    position raises [AttributeError] (from [self.current.length]). *)
Theorem seek_without_track_raises (position : Z) (p : Player) :
  current p = None →
  seek position p =
    Build_Outcome p []
      (Raise (if position <? 0 then TrackInvalidPosition else AttributeError)).
Proof.
  intros Hcur. unfold seek. destruct (position <? 0); py_run; [done|].
  unfold current_length. by rewrite Hcur.
Qed.

(** [seek] never modifies the player, whether it returns or raises: the
    tracked position stays what the last state update made it, so
    [position] read afterwards answers as before. *)
Theorem seek_leaves_player (pos : Z) (p : Player) :
  final (seek pos p) = p
  ∧ ∀ now, position now (final (seek pos p)) = position now p.
Proof.
  assert (final (seek pos p) = p) as Hfinal.
  { unfold seek. destruct (pos <? 0); py_run; [done|].
    destruct (current_length p) as [len|]; py_run; [|done].
    by destruct (pos >? len); py_run. }
  split; [done|]. intros now. by rewrite Hfinal.
Qed.

(** ** Voice events *)

(** A voice-state update that names no channel (the entry is missing,
    [None], empty or 0) makes the player leave: [channel] becomes [None],
    the buffered voice state is emptied, session id included, and nothing
    is sent. *)
Theorem voice_state_update_without_channel_clears (data : pydict) (p : Player) :
  truthy (dict_get data "channel_id") = false →
  on_voice_state_update data p =
    Build_Outcome (set__voice_state ∅ (set_channel None p)) [] (Ok tt).
Proof.
  intros Hfalsy. unfold on_voice_state_update. rewrite Hfalsy. by py_run.
Qed.

(** When [int(channel_id)] raises, [on_voice_state_update] raises the same
    exception and sends nothing; the session id is already buffered and
    the channel is the one the player had. *)
Theorem voice_state_update_bad_channel_raises (data : pydict) (e : exn)
    (p : Player) :
  truthy (dict_get data "channel_id") = true →
  py_int (dict_get data "channel_id") = Raise e →
  on_voice_state_update data p =
    Build_Outcome
      (set__voice_state
         (<["sessionId" := dict_get data "session_id"]> (_voice_state p)) p)
      [] (Raise e).
Proof.
  intros Htruthy Hint. unfold on_voice_state_update. rewrite Htruthy.
  py_step. cbn [negb]. py_step. by rewrite Hint.
Qed.

Lemma dom_session_only (v : pyval) :
  voice_keys ≠ dom (<["sessionId" := v]> (∅ : pydict)).
Proof.
  rewrite dom_insert_L, dom_empty_L. intros Heq.
  assert ("event" ∈ voice_keys) as Hin
    by (by apply elem_of_union_r, elem_of_singleton).
  rewrite Heq in Hin.
  apply elem_of_union in Hin as [Hin%elem_of_singleton | Hin];
    [discriminate | by apply not_elem_of_empty in Hin].
Qed.

Lemma dom_event_only (v : pyval) :
  voice_keys ≠ dom (<["event" := v]> (∅ : pydict)).
Proof.
  rewrite dom_insert_L, dom_empty_L. intros Heq.
  assert ("sessionId" ∈ voice_keys) as Hin
    by (by apply elem_of_union_l, elem_of_singleton).
  rewrite Heq in Hin.
  apply elem_of_union in Hin as [Hin%elem_of_singleton | Hin];
    [discriminate | by apply not_elem_of_empty in Hin].
Qed.

Lemma dom_session_and_event (v w : pyval) (vs : pydict) :
  dom vs ⊆ voice_keys →
  voice_keys = dom (<["event" := w]> (<["sessionId" := v]> vs)).
Proof.
  intros Hsub. rewrite !dom_insert_L. apply set_eq. intros k.
  unfold voice_keys in *. rewrite !elem_of_union, !elem_of_singleton.
  split; [intros [->| ->]; auto|].
  intros [->|[->|Hk]]; auto.
  apply Hsub in Hk. by rewrite elem_of_union, !elem_of_singleton in Hk.
Qed.

Lemma dom_event_and_session (v w : pyval) (vs : pydict) :
  dom vs ⊆ voice_keys →
  voice_keys = dom (<["sessionId" := v]> (<["event" := w]> vs)).
Proof.
  intros Hsub. rewrite !dom_insert_L. apply set_eq. intros k.
  unfold voice_keys in *. rewrite !elem_of_union, !elem_of_singleton.
  split; [intros [->| ->]; auto|].
  intros [->|[->|Hk]]; auto.
  apply Hsub in Hk. by rewrite elem_of_union, !elem_of_singleton in Hk.
Qed.

Lemma kwargs_voice_update (g : pyval) (s e : pyval) :
  kwargs [("op", VStr "voiceUpdate"); ("guildId", g)]
         (<["event" := e]> (<["sessionId" := s]> ∅))
  = Ok (list_to_map [("op", VStr "voiceUpdate"); ("guildId", g)]
          ∪ <["event" := e]> (<["sessionId" := s]> ∅)).
Proof.
  unfold kwargs.
  replace (forallb _ _) with true; [done|].
  symmetry. apply forallb_forall. intros kv Hkv.
  apply negb_true_iff, bool_decide_eq_false_2.
  rewrite !dom_insert_L, dom_empty_L, !elem_of_union, !elem_of_singleton.
  cbn in Hkv. intros [Hk|[Hk|Hk]]; [| |by apply not_elem_of_empty in Hk];
    destruct Hkv as [<-|[<-|[]]]; discriminate Hk.
Qed.

(** The handshake in the usual order, starting with nothing buffered: the
    voice-state update buffers the session id, records the channel and
    sends nothing; the voice-server update that follows sends exactly one
    "voiceUpdate" with the guild id, that session id and the server payload
    as [event]. *)
Theorem handshake_state_then_server (state_data server_data : pydict) (cid : Z)
    (p : Player) :
  _voice_state p = ∅ →
  truthy (dict_get state_data "channel_id") = true →
  py_int (dict_get state_data "channel_id") = Ok cid →
  let o1 := on_voice_state_update state_data p in
  let o2 := on_voice_server_update server_data (final o1) in
  sent o1 = [] ∧ value o1 = Ok tt
  ∧ channel (final o1) = get_channel cid
  ∧ sent o2 =
      [list_to_map [("op", VStr "voiceUpdate");
                    ("guildId", VStr (pretty (guild_id (_guild p))))]
         ∪ <["event" := VDict server_data]>
             (<["sessionId" := dict_get state_data "session_id"]> ∅)]
  ∧ value o2 = Ok tt.
Proof.
  intros Hempty Htruthy Hint o1 o2.
  assert (o1 = Build_Outcome
            (set_channel (get_channel cid)
               (set__voice_state
                  (<["sessionId" := dict_get state_data "session_id"]> ∅) p))
            [] (Ok tt)) as Ho1.
  { subst o1 o2. unfold on_voice_state_update, _dispatch_voice_update.
    rewrite Htruthy. py_step. cbn [negb]. py_step. rewrite Hint, Hempty.
    py_run. cbn [_voice_state set_channel set__voice_state].
    rewrite bool_decide_eq_false_2 by apply dom_session_only. by py_run. }
  subst o2. rewrite Ho1. cbn [final sent value channel set_channel].
  split_and!; try done;
    unfold on_voice_server_update, _dispatch_voice_update; py_run;
    cbn [_voice_state set_channel set__voice_state];
    (rewrite bool_decide_eq_true_2
       by (apply dom_session_and_event; rewrite dom_empty_L; apply empty_subseteq));
    cbn [negb]; py_run; unfold guildId; cbn [_guild set_channel set__voice_state];
    by rewrite kwargs_voice_update.
Qed.

Lemma kwargs_voice_keys (g : pyval) (star : pydict) :
  dom star ⊆ voice_keys →
  kwargs [("op", VStr "voiceUpdate"); ("guildId", g)] star
  = Ok (list_to_map [("op", VStr "voiceUpdate"); ("guildId", g)] ∪ star).
Proof.
  intros Hsub. unfold kwargs.
  replace (forallb _ _) with true; [done|].
  symmetry. apply forallb_forall. intros kv Hkv.
  apply negb_true_iff, bool_decide_eq_false_2. intros Hk%Hsub.
  unfold voice_keys in Hk. rewrite elem_of_union, !elem_of_singleton in Hk.
  cbn in Hkv. destruct Hkv as [<-|[<-|[]]]; destruct Hk as [Hk|Hk]; discriminate Hk.
Qed.

(** The handshake in the other order, starting with nothing buffered: the
    voice-server update buffers its payload as [event] and sends nothing;
    the voice-state update that follows sends exactly one "voiceUpdate"
    with the guild id and the session id, whose [event] is the voice-state
    payload itself, while the buffered [event] stays the server payload. *)
Theorem handshake_server_then_state (state_data server_data : pydict) (cid : Z)
    (p : Player) :
  _voice_state p = ∅ →
  truthy (dict_get state_data "channel_id") = true →
  py_int (dict_get state_data "channel_id") = Ok cid →
  let o1 := on_voice_server_update server_data p in
  let o2 := on_voice_state_update state_data (final o1) in
  sent o1 = [] ∧ value o1 = Ok tt
  ∧ (∃ kw, sent o2 = [kw]
       ∧ kw !! "op" = Some (VStr "voiceUpdate")
       ∧ kw !! "guildId" = Some (VStr (pretty (guild_id (_guild p))))
       ∧ kw !! "sessionId" = Some (dict_get state_data "session_id")
       ∧ kw !! "event" = Some (VDict state_data))
  ∧ value o2 = Ok tt
  ∧ _voice_state (final o2) !! "event" = Some (VDict server_data).
Proof.
  intros Hempty Htruthy Hint o1 o2.
  assert (o1 = Build_Outcome
            (set__voice_state (<["event" := VDict server_data]> ∅) p)
            [] (Ok tt)) as Ho1.
  { subst o1 o2. unfold on_voice_server_update, _dispatch_voice_update.
    py_run. cbn [_voice_state set__voice_state]. rewrite Hempty.
    rewrite bool_decide_eq_false_2 by apply dom_event_only. by py_run. }
  subst o2. rewrite Ho1. cbn [final sent value].
  split; [done|]. split; [done|].
  unfold on_voice_state_update, _dispatch_voice_update. rewrite Htruthy.
  py_step. cbn [negb]. py_step. rewrite Hint. py_run.
  cbn [_voice_state set_channel set__voice_state].
  rewrite bool_decide_eq_true_2
    by (apply dom_event_and_session; rewrite dom_empty_L; apply empty_subseteq).
  cbn [negb]. py_run. unfold guildId. cbn [_guild set_channel set__voice_state].
  rewrite kwargs_voice_keys.
  - cbn [final sent value _voice_state set_channel set__voice_state].
    split_and!; [eexists; split_and!; [done|..] | done |].
    + apply lookup_union_Some_l. cbn. apply lookup_insert_eq.
    + apply lookup_union_Some_l. cbn.
      rewrite lookup_insert_ne by done. apply lookup_insert_eq.
    + rewrite lookup_union_r by done.
      rewrite lookup_insert_ne by done. apply lookup_insert_eq.
    + rewrite lookup_union_r by done. apply lookup_insert_eq.
    + rewrite lookup_insert_ne by done. apply lookup_insert_eq.
  - rewrite dom_insert_L.
    rewrite <- (dom_event_and_session (dict_get state_data "session_id")
                  (VDict server_data) ∅)
      by (rewrite dom_empty_L; apply empty_subseteq).
    unfold voice_keys. apply union_subseteq. split; [|done].
    apply union_subseteq_r.
Qed.

(** ** State updates *)

(** A state update whose payload has no ["state"] dictionary raises
    [AttributeError]; the time of the last update is refreshed all the
    same, while the tracked connectedness and position stay as they
    were. *)
Theorem update_state_without_state_raises (now : Z) (data : pydict) (p : Player) :
  data !! "state" = None →
  _update_state now data p =
    Build_Outcome (set__last_update now p) [] (Raise AttributeError).
Proof.
  intros Hstate. unfold _update_state, dict_get. rewrite Hstate.
  cbn [from_option]. by py_run.
Qed.

(** A state update whose state lacks ["connected"] stores [None] as the
    connectedness: from then on [is_playing] and [is_paused] answer [None]
    and [position] is 0 at every clock reading. *)
Theorem update_state_without_connected (now now' : Z) (data state : pydict)
    (p : Player) :
  data !! "state" = Some (VDict state) →
  state !! "connected" = None →
  let p' := final (_update_state now data p) in
  value (_update_state now data p) = Ok tt
  ∧ is_playing p' = VNone
  ∧ is_paused p' = VNone
  ∧ position now' p' = Ok 0.
Proof.
  intros Hstate Hc. unfold _update_state, dict_get.
  rewrite Hstate; cbn [from_option id]. rewrite Hc. by py_run.
Qed.

(** A state update that reports the player connected but carries no
    ["position"] stores [None] as the last position: while a track is
    current, [position] then raises [TypeError]. *)
Theorem update_state_without_position (now now' : Z) (data state : pydict)
    (t : Track) (p : Player) :
  data !! "state" = Some (VDict state) →
  state !! "connected" = Some (VBool true) →
  state !! "position" = None →
  current p = Some t →
  value (_update_state now data p) = Ok tt
  ∧ position now' (final (_update_state now data p)) = Raise TypeError.
Proof.
  intros Hstate Hc Hpos Hcur. unfold _update_state, dict_get.
  rewrite Hstate; cbn [from_option id]. rewrite Hc, Hpos. py_run.
  split; [done|]. unfold position, is_playing, is_paused, py_and, current in *.
  cbn. rewrite Hcur. cbn. by destruct (_paused p).
Qed.

(** Once [set_pause(True)] has run, [position] no longer depends on the
    clock. *)
Theorem position_of_paused_player_ignores_clock (now1 now2 : Z) (p : Player) :
  position now1 (final (set_pause true p)) = position now2 (final (set_pause true p)).
Proof.
  unfold set_pause. py_run.
  unfold position, is_playing, is_paused, py_and. cbn.
  destruct (truthy (_is_connected p)) eqn:Hc; cbn; [|by rewrite Hc].
  by destruct (bool_decide _).
Qed.

(** ** Filters and events *)

(** A filter whose payload has the key ["op"] or ["guildId"] clashes with
    the keywords of the call to [Node.send]: [set_filter] raises
    [TypeError] before anything is sent, and the player is unchanged. *)
Theorem set_filter_reserved_key_raises (now : Z) (f : Filter) (p : Player) :
  is_Some (payload f !! "op") ∨ is_Some (payload f !! "guildId") →
  set_filter now f p = Build_Outcome p [] (Raise TypeError).
Proof.
  intros Hkey. unfold set_filter. py_step. py_step.
  assert (kwargs [("op", VStr "filters"); ("guildId", guildId p)] (payload f)
          = Raise TypeError) as ->; [|done].
  unfold kwargs. cbn [forallb fst].
  destruct Hkey as [Hk%elem_of_dom | Hk%elem_of_dom].
  - by rewrite (bool_decide_eq_true_2 _ Hk).
  - rewrite (bool_decide_eq_true_2 ("guildId" ∈ dom (payload f)) Hk).
    by destruct (bool_decide ("op" ∈ dom (payload f))).
Qed.

(** When the payload has no ["type"], or [events] has no class of that
    name, [_dispatch_event] raises [TypeError] (from [getattr] with a name
    that is not a string, or from calling [None]); the player is unchanged
    and nothing is sent. *)
Theorem dispatch_event_unknown_type_raises (data : pydict) (p : Player) :
  (data !! "type" = None →
     _dispatch_event data p = Build_Outcome p [] (Raise TypeError))
  ∧ (∀ name, data !! "type" = Some (VStr name) → events_getattr name = None →
       _dispatch_event data p = Build_Outcome p [] (Raise TypeError)).
Proof.
  unfold _dispatch_event, dict_get. split.
  - by intros ->.
  - intros name -> Hnone. cbn [from_option id]. by rewrite Hnone.
Qed.

(** ** Invariants of the messages and of the voice state *)

Section SendsFrom.

Context {P : Player → Prop} {Q : pydict → Prop}.

Lemma sends_from_ret {A} (a : A) : sends_from P Q (ret a).
Proof. intros p Hp. by split; [constructor|]. Qed.

Lemma sends_from_raise {A} e : sends_from P Q (@raise A e).
Proof. intros p Hp. by split; [constructor|]. Qed.

Lemma sends_from_attr {A} (f : Player → A) : sends_from P Q (attr f).
Proof. intros p Hp. by split; [constructor|]. Qed.

Lemma sends_from_expr {A} (f : Player → result A) : sends_from P Q (expr f).
Proof. intros p Hp. by split; [constructor|]. Qed.

Lemma sends_from_lift {A} (r : result A) : sends_from P Q (lift r).
Proof. intros p Hp. by split; [constructor|]. Qed.

Lemma sends_from_assign (f : Player → Player) :
  (∀ p, P p → P (f p)) → sends_from P Q (assign f).
Proof. intros Hf p Hp. split; [constructor | by apply Hf]. Qed.

Lemma sends_from_send explicit star :
  (∀ kw, kwargs explicit star = Ok kw → Q kw) → sends_from P Q (send explicit star).
Proof.
  intros Hkw p Hp. rewrite run_send.
  destruct (kwargs explicit star) as [kw|e]; cbn; (split; [|done]).
  - constructor; [by apply Hkw | constructor].
  - constructor.
Qed.

Lemma sends_from_bind {A B} (m : Py A) (k : A → Py B) :
  sends_from P Q m → (∀ a, sends_from P Q (k a)) → sends_from P Q (m ≫= k).
Proof.
  intros Hm Hk p Hp. destruct (Hm p Hp) as [Hsent Hfinal].
  unfold mbind, Py_bind, bind.
  destruct (value (m p)) as [a|e]; cbn; [|done].
  destruct (Hk a _ Hfinal) as [Hsent' Hfinal'].
  split; [by apply Forall_app | done].
Qed.

(** The continuation of an attribute read only needs to behave for the
    values read from players that satisfy [P]. *)
Lemma sends_from_bind_attr {A B} (f : Player → A) (k : A → Py B) :
  (∀ p0, P p0 → sends_from P Q (k (f p0))) → sends_from P Q (attr f ≫= k).
Proof. intros Hk p Hp. rewrite bind_attr. by apply (Hk p Hp). Qed.

End SendsFrom.

Lemma kwargs_guildId v g rest star kw :
  kwargs (("op", v) :: ("guildId", g) :: rest) star = Ok kw →
  kw !! "guildId" = Some g.
Proof.
  unfold kwargs. case_match; [|done]. intros [= <-].
  apply lookup_union_Some_l. cbn.
  rewrite lookup_insert_ne by done. apply lookup_insert_eq.
Qed.

Lemma addressed_send (g : Guild) (op : string) (p0 : Player) rest star kw :
  _guild p0 = g → op ∈ protocol_ops →
  kwargs (("op", VStr op) :: ("guildId", guildId p0) :: rest) star = Ok kw →
  addressed_to g kw.
Proof.
  intros <- Hop Hkw. split.
  - by rewrite (kwargs_guildId _ _ _ _ _ Hkw).
  - exists op. split; [by rewrite (kwargs_op _ _ _ _ Hkw) | done].
Qed.

(** Decomposing a method, with [side] for what an assignment must keep. *)
Ltac py_sends side :=
  repeat match goal with
  | |- sends_from _ _ (raise _ ≫= _) => apply sends_from_bind; [|intros ?]
  | |- sends_from _ _ (attr _ ≫= _) =>
      apply sends_from_bind_attr; intros ? ?; cbv beta zeta
  | |- sends_from _ _ (_ ≫= _) => apply sends_from_bind; [|intros ?]
  | |- sends_from _ _ (ret _) => apply sends_from_ret
  | |- sends_from _ _ (raise _) => apply sends_from_raise
  | |- sends_from _ _ (attr _) => apply sends_from_attr
  | |- sends_from _ _ (expr _) => apply sends_from_expr
  | |- sends_from _ _ (lift _) => apply sends_from_lift
  | |- sends_from _ _ (assign _) => apply sends_from_assign; intros ? ?; side
  | |- sends_from _ _ (send _ _) => apply sends_from_send; intros ? ?; side
  | |- sends_from _ _ (if ?b then _ else _) => destruct b
  | |- sends_from _ _ (match ?x with _ => _ end) => destruct x
  end.

Ltac unfold_methods :=
  unfold ignore, _update_state, _dispatch_voice_update, on_voice_server_update,
    on_voice_state_update, _dispatch_event, get_tracks, connect, destroy,
    disconnect, stop, del_player, assign_current, play, set_pause, set_volume,
    set_filter.

Lemma run_addressed (g : Guild) (c : call) :
  sends_from (λ p, _guild p = g) (addressed_to g) (run c).
Proof.
  assert (∀ position, sends_from (λ p, _guild p = g) (addressed_to g) (seek position))
    as Hseek.
  { intros position. unfold seek.
    py_sends ltac:(first
      [ done
      | eapply addressed_send; [eassumption | | eassumption];
        unfold protocol_ops; rewrite !elem_of_cons; tauto ]). }
  destruct c; cbn [run];
    do 2 (unfold_methods;
          py_sends ltac:(first
            [ done
            | eapply addressed_send; [eassumption | | eassumption];
              unfold protocol_ops; rewrite !elem_of_cons; tauto ]);
          try apply Hseek).
Qed.

(** Every message any call sends names an operation of the protocol and
    carries the player's own guild id (a filter payload or voice data
    cannot override either), and no call changes the player's guild. *)
Theorem messages_addressed_to_own_guild (c : call) (p : Player) :
  (∀ kw, kw ∈ sent (run c p) → addressed_to (_guild p) kw)
  ∧ _guild (final (run c p)) = _guild p.
Proof.
  destruct (run_addressed (_guild p) c p eq_refl) as [Hsent Hguild].
  split; [|done]. intros kw Hin. by apply (proj1 (Forall_forall _ _) Hsent).
Qed.

Lemma voice_keys_insert (k : string) (v : pyval) (vs : pydict) :
  k ∈ voice_keys → dom vs ⊆ voice_keys → dom (<[k := v]> vs) ⊆ voice_keys.
Proof.
  intros Hk Hsub. rewrite dom_insert_L. apply union_subseteq.
  split; [by apply singleton_subseteq_l | done].
Qed.

Lemma run_voice_keys (c : call) :
  sends_from (λ p, dom (_voice_state p) ⊆ voice_keys) (λ _, True) (run c).
Proof.
  assert (∀ position,
            sends_from (λ p, dom (_voice_state p) ⊆ voice_keys) (λ _, True)
              (seek position)) as Hseek.
  { intros position. unfold seek. py_sends ltac:(done). }
  destruct c; cbn [run];
    do 2 (unfold_methods;
          py_sends ltac:(first
            [ done
            | cbn [_voice_state set__voice_state]; apply voice_keys_insert;
              [unfold voice_keys; rewrite elem_of_union, !elem_of_singleton; tauto
              | done]
            | cbn [_voice_state set__voice_state]; rewrite dom_empty_L;
              apply empty_subseteq ]);
          try apply Hseek).
Qed.

(** On every player that exists the buffered voice state holds no key
    other than [sessionId] and [event]. *)
Theorem voice_state_keys_bounded (p : Player) :
  reachable p → dom (_voice_state p) ⊆ voice_keys.
Proof.
  induction 1 as [ch node | p c _ IH].
  - cbn. rewrite dom_empty_L. apply empty_subseteq.
  - by apply (run_voice_keys c p).
Qed.

(** ** Which call changes what *)

Ltac py_frame :=
  do 2 (unfold_methods; py_cases; try (unfold seek; py_cases)).

(** The current track changes only in [play], the filter only in
    [set_filter], the volume only in [set_volume], the pause flag only in
    [set_pause] and the tracked connectedness only in [_update_state]: in
    particular no call clears the current track, and [connect] does not
    mark the player connected. *)
Theorem attributes_change_only_in_their_setter (c : call) (p : Player) :
  (current (final (run c p)) ≠ current p → ∃ t s, c = Call_play t s)
  ∧ (filter (final (run c p)) ≠ filter p → ∃ now f, c = Call_set_filter now f)
  ∧ (volume (final (run c p)) ≠ volume p → ∃ v, c = Call_set_volume v)
  ∧ (_paused (final (run c p)) ≠ _paused p → ∃ b, c = Call_set_pause b)
  ∧ (_is_connected (final (run c p)) ≠ _is_connected p →
       ∃ now data, c = Call_update_state now data).
Proof.
  split_and!; intros Hchange.
  - destruct c; try (by eauto); exfalso; apply Hchange;
      apply (λ H : preserves current _, H p); cbn [run]; py_frame.
  - destruct c; try (by eauto); exfalso; apply Hchange;
      apply (λ H : preserves filter _, H p); cbn [run]; py_frame.
  - destruct c; try (by eauto); exfalso; apply Hchange;
      apply (λ H : preserves volume _, H p); cbn [run]; py_frame.
  - destruct c; try (by eauto); exfalso; apply Hchange;
      apply (λ H : preserves _paused _, H p); cbn [run]; py_frame.
  - destruct c; try (by eauto); exfalso; apply Hchange;
      apply (λ H : preserves _is_connected _, H p); cbn [run]; py_frame.
Qed.

End Environment.

(** ** The theorems at concrete players *)

Lemma play_sends_play_and_tracks_current_witness :
  spotify sample_track = false
  ∧ value (play sample_node_get_tracks sample_track 0 fresh_player)
      = Ok (Some sample_track)
  ∧ current (final (play sample_node_get_tracks sample_track 0 fresh_player))
      = Some sample_track.
Proof.
  split; [reflexivity|].
  destruct (play_sends_play_and_tracks_current sample_node_get_tracks
              sample_track 0 fresh_player eq_refl) as (_ & Hvalue & Hcurrent & _).
  exact (conj Hvalue Hcurrent).
Defined.

Lemma seek_raises_iff_out_of_range_witness :
  current playing_player = Some sample_track
  ∧ (value (seek 1001 playing_player) = Raise TrackInvalidPosition
       ↔ (1001 < 0 ∨ 1001 > length sample_track)).
Proof.
  split; [reflexivity|].
  exact (proj1 (seek_raises_iff_out_of_range sample_track 1001 playing_player eq_refl)).
Defined.

Lemma update_state_mirrors_payload_witness :
  sample_state_update !! "state"
    = Some (VDict {["connected" := VBool true; "position" := VInt 1234]})
  ∧ _is_connected (final (_update_state 99 sample_state_update fresh_player))
      = VBool true
  ∧ _last_position (final (_update_state 99 sample_state_update fresh_player))
      = VInt 1234
  ∧ _last_update (final (_update_state 99 sample_state_update fresh_player)) = 99.
Proof.
  split; [vm_compute; reflexivity|].
  destruct (update_state_mirrors_payload 99 sample_state_update
              {["connected" := VBool true; "position" := VInt 1234]}
              (VBool true) (VInt 1234) fresh_player)
    as (Hc & Hpos & Hnow & _);
    [vm_compute; reflexivity | vm_compute; reflexivity | vm_compute; reflexivity |].
  exact (conj Hc (conj Hpos Hnow)).
Defined.

Lemma voice_update_needs_session_and_event_witness :
  sample_voice_update
    ∈ sent (on_voice_server_update sample_server_update session_player)
  ∧ dom (_voice_state (final (on_voice_server_update sample_server_update
                                session_player)))
      = {["sessionId"; "event"]}
  ∧ sent (on_voice_server_update sample_server_update fresh_player) = [].
Proof.
  assert (sample_voice_update
            ∈ sent (on_voice_server_update sample_server_update session_player))
    as Hin.
  { replace (sent (on_voice_server_update sample_server_update session_player))
      with [sample_voice_update] by (vm_compute; reflexivity).
    apply list_elem_of_here. }
  split; [exact Hin|].
  destruct (voice_update_needs_session_and_event sample_int_of_str
              sample_get_channel sample_node_get_tracks sample_events_getattr)
    as [Hsent Hnone].
  split.
  - apply (Hsent (Call_on_voice_server_update sample_server_update)
             session_player sample_voice_update Hin).
    vm_compute; reflexivity.
  - apply Hnone. vm_compute. intros H. discriminate H.
Defined.

Lemma seek_returns_zero_witness :
  reachable sample_int_of_str sample_get_channel sample_node_get_tracks
    sample_events_getattr
    (final (run sample_int_of_str sample_get_channel sample_node_get_tracks
              sample_events_getattr (Call_play sample_track 0) fresh_player))
  ∧ value (seek 250
             (final (run sample_int_of_str sample_get_channel
                       sample_node_get_tracks sample_events_getattr
                       (Call_play sample_track 0) fresh_player))) = Ok 0.
Proof.
  assert (reachable sample_int_of_str sample_get_channel sample_node_get_tracks
            sample_events_getattr
            (final (run sample_int_of_str sample_get_channel
                      sample_node_get_tracks sample_events_getattr
                      (Call_play sample_track 0) fresh_player))) as Hreach
    by (apply reachable_step, reachable_init).
  split; [exact Hreach|].
  destruct (seek_returns_zero sample_int_of_str sample_get_channel
              sample_node_get_tracks sample_events_getattr) as (_ & _ & Hseek).
  destruct (value (seek 250 _)) as [r|e] eqn:Hvalue; [|vm_compute in Hvalue; discriminate].
  f_equal. exact (Hseek _ 250 r Hreach Hvalue).
Defined.

Lemma position_float_bounded_and_zero_cases_witness :
  _last_position playing_player = VInt 500 ∧ 0 ≤ 500
  ∧ float_of_int 500 = Ok (float_of_scaled 500 0)
  ∧ float_sub_num sample_now sample_last_update = Ok (float_of_scaled 999 (-2))
  ∧ int_le_num 0 (NFloat (float_of_scaled 999 (-2))) = true
  ∧ ∃ r, position_float sample_now sample_last_update playing_player = Ok r
      ∧ int_le_num 0 r = true ∧ num_le_int r (length sample_track) = true.
Proof.
  split; [reflexivity|]. split; [lia|]. split; [vm_compute; reflexivity|].
  split; [vm_compute; reflexivity|]. split; [vm_compute; reflexivity|].
  destruct (position_float_bounded_and_zero_cases sample_now sample_last_update
              playing_player 500 (float_of_scaled 500 0)
              (float_of_scaled 999 (-2)) eq_refl)
    as (r & Hr & Hrange & _);
    [lia | vm_compute; reflexivity | vm_compute; reflexivity
    | vm_compute; reflexivity |].
  exists r. split; [exact Hr|].
  apply (Hrange sample_track); [reflexivity | vm_compute; discriminate].
Defined.

Lemma not_connected_neither_playing_nor_paused_witness :
  _is_connected (set__paused true (set__current (Some sample_track) fresh_player))
    = VBool false
  ∧ is_playing (set__paused true (set__current (Some sample_track) fresh_player))
      = VBool false
  ∧ is_paused (set__paused true (set__current (Some sample_track) fresh_player))
      = VBool false.
Proof.
  split; [reflexivity|].
  exact (not_connected_neither_playing_nor_paused
           (set__paused true (set__current (Some sample_track) fresh_player))
           eq_refl).
Defined.

(** C9 (as stated) fails on a paused player: with the last position 500,
    the last update at 1000.5 ms and the clock at 10000.5 ms, the elapsed
    time is not negative and the extrapolated position, 9500.0, exceeds the
    track's 1000 ms, yet [position] returns 500, not 0. *)
Lemma position_float_paused_not_zero :
  current paused_player = Some sample_track
  ∧ _last_position paused_player = VInt 500
  ∧ 0 ≤ 500
  ∧ float_sub_num sample_later sample_last_update = Ok (float_of_scaled 9000 0)
  ∧ int_le_num 0 (NFloat (float_of_scaled 9000 0)) = true
  ∧ extrapolated sample_later sample_last_update paused_player
      = Ok (float_of_scaled 9500 0)
  ∧ num_gt_int (NFloat (float_of_scaled 9500 0)) (length sample_track) = true
  ∧ position_float sample_later sample_last_update paused_player = Ok (NInt 500)
  ∧ ¬ (position_float sample_later sample_last_update paused_player = Ok (NInt 0)).
Proof. vm_compute. repeat split; congruence. Qed.

Lemma play_spotify_plays_search_result_witness :
  spotify sample_spotify_track = true
  ∧ sample_node_get_tracks (search_type sample_spotify_track) = Ok [sample_track]
  ∧ value (play sample_node_get_tracks sample_spotify_track 0 fresh_player)
      = Ok (Some (set_youtube_result sample_spotify_track sample_track)).
Proof.
  split; [reflexivity|]. split; [reflexivity|].
  exact (proj1 (proj2 (play_spotify_plays_search_result sample_node_get_tracks
                         sample_spotify_track sample_track [] 0 fresh_player
                         eq_refl eq_refl))).
Defined.

Lemma play_spotify_without_result_raises_witness :
  spotify sample_spotify_track = true
  ∧ empty_node_get_tracks (search_type sample_spotify_track) = Ok []
  ∧ play empty_node_get_tracks sample_spotify_track 0 playing_player
      = Build_Outcome playing_player [] (Raise IndexError).
Proof.
  split; [reflexivity|]. split; [reflexivity|].
  exact (proj1 (play_spotify_without_result_raises empty_node_get_tracks
                  sample_spotify_track 0 playing_player eq_refl) eq_refl).
Defined.

Lemma seek_without_track_raises_witness :
  current fresh_player = None
  ∧ seek 10 fresh_player = Build_Outcome fresh_player [] (Raise AttributeError).
Proof.
  split; [reflexivity|].
  exact (seek_without_track_raises 10 fresh_player eq_refl).
Defined.

Lemma voice_state_update_without_channel_clears_witness :
  truthy (dict_get sample_voice_state_leave "channel_id") = false
  ∧ on_voice_state_update sample_int_of_str sample_get_channel
      sample_voice_state_leave session_player
    = Build_Outcome (set__voice_state ∅ (set_channel None session_player)) [] (Ok tt).
Proof.
  split; [vm_compute; reflexivity|].
  apply voice_state_update_without_channel_clears. vm_compute; reflexivity.
Defined.

Lemma voice_state_update_bad_channel_raises_witness :
  truthy (dict_get sample_voice_state_text "channel_id") = true
  ∧ py_int sample_int_of_str (dict_get sample_voice_state_text "channel_id")
      = Raise ValueError
  ∧ value (on_voice_state_update sample_int_of_str sample_get_channel
             sample_voice_state_text fresh_player) = Raise ValueError.
Proof.
  split; [vm_compute; reflexivity|]. split; [vm_compute; reflexivity|].
  rewrite (voice_state_update_bad_channel_raises sample_int_of_str
             sample_get_channel sample_voice_state_text ValueError fresh_player);
    [reflexivity | vm_compute; reflexivity | vm_compute; reflexivity].
Defined.

Lemma handshake_state_then_server_witness :
  _voice_state fresh_player = ∅
  ∧ truthy (dict_get sample_voice_state_join "channel_id") = true
  ∧ py_int sample_int_of_str (dict_get sample_voice_state_join "channel_id") = Ok 7
  ∧ sent (on_voice_state_update sample_int_of_str sample_get_channel
            sample_voice_state_join fresh_player) = []
  ∧ value (on_voice_server_update sample_server_update
             (final (on_voice_state_update sample_int_of_str sample_get_channel
                       sample_voice_state_join fresh_player))) = Ok tt.
Proof.
  split; [reflexivity|]. split; [vm_compute; reflexivity|].
  split; [vm_compute; reflexivity|].
  destruct (handshake_state_then_server sample_int_of_str sample_get_channel
              sample_voice_state_join sample_server_update 7 fresh_player)
    as (Hsent & _ & _ & _ & Hvalue);
    [reflexivity | vm_compute; reflexivity | vm_compute; reflexivity |].
  exact (conj Hsent Hvalue).
Defined.

Lemma handshake_server_then_state_witness :
  _voice_state fresh_player = ∅
  ∧ truthy (dict_get sample_voice_state_join "channel_id") = true
  ∧ py_int sample_int_of_str (dict_get sample_voice_state_join "channel_id") = Ok 7
  ∧ sent (on_voice_server_update sample_server_update fresh_player) = []
  ∧ _voice_state
      (final (on_voice_state_update sample_int_of_str sample_get_channel
                sample_voice_state_join
                (final (on_voice_server_update sample_server_update fresh_player))))
      !! "event" = Some (VDict sample_server_update).
Proof.
  split; [reflexivity|]. split; [vm_compute; reflexivity|].
  split; [vm_compute; reflexivity|].
  destruct (handshake_server_then_state sample_int_of_str sample_get_channel
              sample_voice_state_join sample_server_update 7 fresh_player)
    as (Hsent & _ & _ & _ & Hevent);
    [reflexivity | vm_compute; reflexivity | vm_compute; reflexivity |].
  exact (conj Hsent Hevent).
Defined.

Lemma update_state_without_state_raises_witness :
  sample_stateless_update !! "state" = None
  ∧ _update_state 99 sample_stateless_update playing_player
    = Build_Outcome (set__last_update 99 playing_player) [] (Raise AttributeError).
Proof.
  split; [vm_compute; reflexivity|].
  apply update_state_without_state_raises. vm_compute; reflexivity.
Defined.

Lemma update_state_without_connected_witness :
  sample_empty_state_update !! "state" = Some (VDict ∅)
  ∧ (∅ : pydict) !! "connected" = None
  ∧ is_playing (final (_update_state 99 sample_empty_state_update playing_player))
      = VNone
  ∧ position 120 (final (_update_state 99 sample_empty_state_update playing_player))
      = Ok 0.
Proof.
  split; [vm_compute; reflexivity|]. split; [reflexivity|].
  destruct (update_state_without_connected 99 120 sample_empty_state_update ∅
              playing_player) as (_ & Hplaying & _ & Hposition);
    [vm_compute; reflexivity | reflexivity |].
  exact (conj Hplaying Hposition).
Defined.

Lemma update_state_without_position_witness :
  sample_connected_only_update !! "state"
    = Some (VDict {["connected" := VBool true]})
  ∧ ({["connected" := VBool true]} : pydict) !! "connected" = Some (VBool true)
  ∧ ({["connected" := VBool true]} : pydict) !! "position" = None
  ∧ current playing_player = Some sample_track
  ∧ position 120
      (final (_update_state 99 sample_connected_only_update playing_player))
    = Raise TypeError.
Proof.
  split; [vm_compute; reflexivity|]. split; [vm_compute; reflexivity|].
  split; [vm_compute; reflexivity|]. split; [reflexivity|].
  apply (update_state_without_position 99 120 sample_connected_only_update
           {["connected" := VBool true]} sample_track playing_player);
    [vm_compute; reflexivity | vm_compute; reflexivity | vm_compute; reflexivity
    | reflexivity].
Defined.

Lemma set_filter_reserved_key_raises_witness :
  is_Some (payload reserved_filter !! "op")
  ∧ set_filter 0 reserved_filter playing_player
    = Build_Outcome playing_player [] (Raise TypeError).
Proof.
  assert (is_Some (payload reserved_filter !! "op")) as Hkey
    by (exists (VStr "play"); vm_compute; reflexivity).
  split; [exact Hkey|].
  exact (set_filter_reserved_key_raises 0 reserved_filter playing_player
           (or_introl Hkey)).
Defined.

Lemma dispatch_event_unknown_type_raises_witness :
  sample_stateless_update !! "type" = None
  ∧ _dispatch_event sample_events_getattr sample_stateless_update playing_player
    = Build_Outcome playing_player [] (Raise TypeError).
Proof.
  split; [vm_compute; reflexivity|].
  apply (proj1 (dispatch_event_unknown_type_raises sample_events_getattr
                  sample_stateless_update playing_player)).
  vm_compute; reflexivity.
Defined.

Lemma messages_addressed_to_own_guild_witness :
  sample_voice_update
    ∈ sent (run sample_int_of_str sample_get_channel sample_node_get_tracks
              sample_events_getattr
              (Call_on_voice_server_update sample_server_update) session_player)
  ∧ addressed_to sample_guild sample_voice_update.
Proof.
  assert (sample_voice_update
            ∈ sent (run sample_int_of_str sample_get_channel
                      sample_node_get_tracks sample_events_getattr
                      (Call_on_voice_server_update sample_server_update)
                      session_player)) as Hin.
  { replace (sent (run _ _ _ _ _ session_player))
      with [sample_voice_update] by (vm_compute; reflexivity).
    apply list_elem_of_here. }
  split; [exact Hin|].
  exact (proj1 (messages_addressed_to_own_guild sample_int_of_str
                  sample_get_channel sample_node_get_tracks sample_events_getattr
                  (Call_on_voice_server_update sample_server_update)
                  session_player) sample_voice_update Hin).
Defined.

Lemma voice_state_keys_bounded_witness :
  reachable sample_int_of_str sample_get_channel sample_node_get_tracks
    sample_events_getattr
    (final (run sample_int_of_str sample_get_channel sample_node_get_tracks
              sample_events_getattr
              (Call_on_voice_server_update sample_server_update) fresh_player))
  ∧ dom (_voice_state
           (final (run sample_int_of_str sample_get_channel
                     sample_node_get_tracks sample_events_getattr
                     (Call_on_voice_server_update sample_server_update)
                     fresh_player))) ⊆ voice_keys.
Proof.
  assert (reachable sample_int_of_str sample_get_channel sample_node_get_tracks
            sample_events_getattr
            (final (run sample_int_of_str sample_get_channel
                      sample_node_get_tracks sample_events_getattr
                      (Call_on_voice_server_update sample_server_update)
                      fresh_player))) as Hreach
    by (apply reachable_step, reachable_init).
  split; [exact Hreach|].
  exact (voice_state_keys_bounded _ _ _ _ _ Hreach).
Defined.

Lemma attributes_change_only_in_their_setter_witness :
  current (final (run sample_int_of_str sample_get_channel sample_node_get_tracks
                    sample_events_getattr (Call_play sample_track 0) fresh_player))
    ≠ current fresh_player
  ∧ ∃ t s, Call_play sample_track 0 = Call_play t s.
Proof.
  assert (current (final (run sample_int_of_str sample_get_channel
                            sample_node_get_tracks sample_events_getattr
                            (Call_play sample_track 0) fresh_player))
            ≠ current fresh_player) as Hchange
    by (vm_compute; discriminate).
  split; [exact Hchange|].
  exact (proj1 (attributes_change_only_in_their_setter sample_int_of_str
                  sample_get_channel sample_node_get_tracks sample_events_getattr
                  (Call_play sample_track 0) fresh_player) Hchange).
Defined.

Lemma set_filter_with_track_witness :
  current paused_player = Some sample_track
  ∧ 0 ≤ length sample_track
  ∧ truthy (is_paused paused_player) = true
  ∧ _last_position paused_player = VInt 500
  ∧ payload sample_filter !! "self" = None
  ∧ value (set_filter 200 sample_filter paused_player) = Ok sample_filter
  ∧ filter (final (set_filter 200 sample_filter paused_player)) = Some sample_filter.
Proof.
  split; [reflexivity|]. split; [vm_compute; discriminate|].
  split; [reflexivity|]. split; [reflexivity|]. split; [vm_compute; reflexivity|].
  destruct (set_filter_with_track 200 sample_filter paused_player sample_track 500
              (list_to_map [("op", VStr "filters"); ("guildId", VStr "42")]
                 ∪ payload sample_filter))
    as (r & _ & _ & _ & Hvalue & Hfilter);
    [reflexivity | vm_compute; discriminate
    | right; split; [reflexivity | split; [reflexivity | lia]]
    | vm_compute; reflexivity | vm_compute; reflexivity |].
  exact (conj Hvalue Hfilter).
Defined.
